(** * Histogram: covering bins, lazy statistics and the merge of per-video
      histograms (movement_validation/statistics/histogram.py)

    A shallow embedding of the [Histogram] class, given twice.

    In exact arithmetic.  The first embedding idealises the numpy float64
    values of the source (samples, bin boundaries, bin midpoints) as exact
    rationals ([Q]), compared with [Qeq]; NaN as a per-video statistic is
    kept ([f64]), and where the Python program would go on with an infinity
    or a NaN produced by a division by zero, or with nested arrays, this
    embedding stops with the pseudo-exception [Unmodelled].  A numpy array
    of samples is the list of its elements.  This embedding carries the
    facts that do not turn on rounding: which inputs the constructor and
    the merge refuse, the caches of the lazy properties, the statistics
    over the videos.

    On binary64.  The second embedding, the module [Binary64], computes
    with Rocq's primitive binary64 floats, the arithmetic the program runs,
    and tells one-dimensional data from arrays of rows.  Every statement
    about computed boundaries, counts, densities and the placing of counts
    in the merge is made there.

    Objects.  A [Histogram] instance is a record; an attribute that may be
    missing from the instance is an [option] field, and reading a missing
    attribute raises [AttributeError].  The lazy properties return the cached
    value when the private attribute exists and compute it otherwise.

    Python 3 semantics of [/] (true division) are used throughout. *)

From Stdlib Require Import String QArith Qround ZArith List Lia Lqa Bool.
From Stdlib Require Floats.
Import ListNotations.
Open Scope Q_scope.

Set Implicit Arguments.

(* ================================================================== *)
(** ** Exceptions and results *)

Inductive exn : Type :=
| AttributeError
| TypeError
| ValueError
| IndexError
| ZeroDivisionError
| OverflowError
| AssertionError
| BinCountExceeded   (* [raise Exception("... exceeds the maximum ...")] *)
| Unmodelled.        (* the program continues outside this embedding *)

Inductive result (A : Type) : Type :=
| Ok (a : A)
| Raise (e : exn).

Arguments Ok {A} a.
Arguments Raise {A} e.

Definition bind {A B} (r : result A) (k : A -> result B) : result B :=
  match r with
  | Ok a => k a
  | Raise e => Raise e
  end.

Notation "x <- c ;; k" := (bind c (fun x => k))
  (at level 61, c at next level, right associativity).

(** A list comprehension whose body may raise: [[f x for x in xs]]. *)
Fixpoint mapM {A B} (f : A -> result B) (xs : list A) : result (list B) :=
  match xs with
  | [] => Ok []
  | x :: xs' => y <- f x ;; ys <- mapM f xs' ;; Ok (y :: ys)
  end.

(* ================================================================== *)
(** * The class in exact arithmetic *)

(** ** Python and numpy primitives *)

Definition Qltb (a b : Q) : bool := negb (Qle_bool b a).

(** [min(xs)]: the builtin keeps the first element and replaces it by every
    later element that is strictly smaller. *)
Definition py_min (xs : list Q) : result Q :=
  match xs with
  | [] => Raise ValueError
  | x :: rest => Ok (fold_left (fun m y => if Qltb y m then y else m) rest x)
  end.

(** [max(xs)]: replaces the candidate by every later, strictly larger one. *)
Definition py_max (xs : list Q) : result Q :=
  match xs with
  | [] => Raise ValueError
  | x :: rest => Ok (fold_left (fun m y => if Qltb m y then y else m) rest x)
  end.

(** [xs[0]] and [xs[-1]]. *)
Definition py_first {A} (xs : list A) : result A :=
  match xs with
  | [] => Raise IndexError
  | x :: _ => Ok x
  end.

Definition py_last {A} (xs : list A) : result A :=
  match rev xs with
  | [] => Raise IndexError
  | x :: _ => Ok x
  end.

(** [xs[i]] for a non-negative index. *)
Definition py_index {A} (xs : list A) (i : nat) : result A :=
  match nth_error xs i with
  | Some x => Ok x
  | None => Raise IndexError
  end.

(** [a / b] on floats: a zero divisor gives an infinity or NaN. *)
Definition np_div (a b : Q) : result Q :=
  if Qeq_bool b 0 then Raise Unmodelled else Ok (a / b).

Definition np_floor (x : Q) : Q := inject_Z (Qfloor x).
Definition np_ceil (x : Q) : Q := inject_Z (Qceiling x).

(** [np.arange(start, stop, step)]: [ceil((stop - start) / step)] values
    [start + i * step]. *)
Definition np_arange (start stop step : Q) : result (list Q) :=
  if Qeq_bool step 0 then Raise ZeroDivisionError
  else
    let n := Z.to_nat (Qceiling ((stop - start) / step)) in
    Ok (map (fun i => start + inject_Z (Z.of_nat i) * step) (seq 0 n)).

(** [x.round()]: to the nearest integer, ties to the even one.  The result
    is still a float64. *)
Definition np_round (x : Q) : Q :=
  let f := Qfloor x in
  let d := x - inject_Z f in
  if Qltb d (1 # 2) then inject_Z f
  else if Qltb (1 # 2) d then inject_Z (f + 1)
  else if Z.even f then inject_Z f else inject_Z (f + 1).

(** [np.histogram(data, bins=edges)[0]]: bin [i] counts the samples with
    [edges[i] <= x < edges[i+1]]; the last bin also takes [x = edges[-1]].
    Edges that decrease somewhere are rejected. *)
Definition in_half_open (a b x : Q) : bool := Qle_bool a x && Qltb x b.
Definition in_closed (a b x : Q) : bool := Qle_bool a x && Qle_bool x b.

Definition count_if (p : Q -> bool) (data : list Q) : Z :=
  Z.of_nat (length (filter p data)).

Fixpoint hist_counts (edges : list Q) (data : list Q) : list Z :=
  match edges with
  | a :: ((b :: rest) as tl) =>
      match rest with
      | [] => [count_if (in_closed a b) data]
      | _ :: _ => count_if (in_half_open a b) data :: hist_counts tl data
      end
  | _ => []
  end.

Fixpoint nondecreasing (edges : list Q) : bool :=
  match edges with
  | a :: ((b :: _) as tl) => Qle_bool a b && nondecreasing tl
  | _ => true
  end.

Definition np_histogram (data edges : list Q) : result (list Z) :=
  if nondecreasing edges then Ok (hist_counts edges data)
  else Raise ValueError.

Definition Zsum (xs : list Z) : Z := fold_left Z.add xs 0%Z.
Definition Qsum (xs : list Q) : Q := fold_left Qplus xs 0.

(* ================================================================== *)
(** ** Data model *)

(** The [Specs] object: only the attributes the class reads. *)
Record Specs : Type := {
  bin_width : Q;
  long_field : string
}.

(** A float64 statistic, which may be NaN. *)
Inductive f64 : Type :=
| Fin (q : Q)
| NaN.

Definition np_isnan (x : f64) : bool :=
  match x with
  | Fin _ => false
  | NaN => true
  end.

(** A value that is a scalar for one video and an array after a merge. *)
Inductive pyval (A : Type) : Type :=
| Scalar (x : A)
| Array (xs : list A).

Arguments Scalar {A} x.
Arguments Array {A} xs.

(** [counts]: the integer vector of [np.histogram], or the float matrix
    (one row per video) of a merged histogram. *)
Inductive counts_val : Type :=
| IntVec (c : list Z)
| FloatMat (m : list (list Q)).

Record Histogram : Type := {
  data : option (list Q);               (* [None]: merged *)
  specs : Specs;
  hist_type : string;
  motion_type : string;
  data_type : string;
  bin_boundaries : option (list Q);     (* set by compute_covering_bins *)
  _bin_midpoints : option (list Q);
  _counts : option counts_val;
  _num_samples : option (pyval Z);
  _mean_per_video : option (pyval f64);
  _std_per_video : option (pyval f64);
  _pdf : option (option (list Q));      (* [Some None]: the pdf is [None] *)
  _p_normal : option f64
}.

Definition set_bin_boundaries (h : Histogram) (v : list Q) : Histogram :=
  {| data := data h; specs := specs h; hist_type := hist_type h;
     motion_type := motion_type h; data_type := data_type h;
     bin_boundaries := Some v; _bin_midpoints := _bin_midpoints h;
     _counts := _counts h; _num_samples := _num_samples h;
     _mean_per_video := _mean_per_video h;
     _std_per_video := _std_per_video h; _pdf := _pdf h;
     _p_normal := _p_normal h |}.

Definition set_bin_midpoints (h : Histogram) (v : list Q) : Histogram :=
  {| data := data h; specs := specs h; hist_type := hist_type h;
     motion_type := motion_type h; data_type := data_type h;
     bin_boundaries := bin_boundaries h; _bin_midpoints := Some v;
     _counts := _counts h; _num_samples := _num_samples h;
     _mean_per_video := _mean_per_video h;
     _std_per_video := _std_per_video h; _pdf := _pdf h;
     _p_normal := _p_normal h |}.

Definition set_counts (h : Histogram) (v : counts_val) : Histogram :=
  {| data := data h; specs := specs h; hist_type := hist_type h;
     motion_type := motion_type h; data_type := data_type h;
     bin_boundaries := bin_boundaries h; _bin_midpoints := _bin_midpoints h;
     _counts := Some v; _num_samples := _num_samples h;
     _mean_per_video := _mean_per_video h;
     _std_per_video := _std_per_video h; _pdf := _pdf h;
     _p_normal := _p_normal h |}.

Definition set_num_samples (h : Histogram) (v : pyval Z) : Histogram :=
  {| data := data h; specs := specs h; hist_type := hist_type h;
     motion_type := motion_type h; data_type := data_type h;
     bin_boundaries := bin_boundaries h; _bin_midpoints := _bin_midpoints h;
     _counts := _counts h; _num_samples := Some v;
     _mean_per_video := _mean_per_video h;
     _std_per_video := _std_per_video h; _pdf := _pdf h;
     _p_normal := _p_normal h |}.

Definition set_mean_per_video (h : Histogram) (v : pyval f64) : Histogram :=
  {| data := data h; specs := specs h; hist_type := hist_type h;
     motion_type := motion_type h; data_type := data_type h;
     bin_boundaries := bin_boundaries h; _bin_midpoints := _bin_midpoints h;
     _counts := _counts h; _num_samples := _num_samples h;
     _mean_per_video := Some v;
     _std_per_video := _std_per_video h; _pdf := _pdf h;
     _p_normal := _p_normal h |}.

Definition set_std_per_video (h : Histogram) (v : pyval f64) : Histogram :=
  {| data := data h; specs := specs h; hist_type := hist_type h;
     motion_type := motion_type h; data_type := data_type h;
     bin_boundaries := bin_boundaries h; _bin_midpoints := _bin_midpoints h;
     _counts := _counts h; _num_samples := _num_samples h;
     _mean_per_video := _mean_per_video h;
     _std_per_video := Some v; _pdf := _pdf h;
     _p_normal := _p_normal h |}.

Definition set_pdf (h : Histogram) (v : option (list Q)) : Histogram :=
  {| data := data h; specs := specs h; hist_type := hist_type h;
     motion_type := motion_type h; data_type := data_type h;
     bin_boundaries := bin_boundaries h; _bin_midpoints := _bin_midpoints h;
     _counts := _counts h; _num_samples := _num_samples h;
     _mean_per_video := _mean_per_video h;
     _std_per_video := _std_per_video h; _pdf := Some v;
     _p_normal := _p_normal h |}.

(** Reading an attribute that may be missing. *)
Definition getattr {A} (a : option A) : result A :=
  match a with
  | Some v => Ok v
  | None => Raise AttributeError
  end.

(* ================================================================== *)
(** ** The Histogram class *)

Section HistogramClass.

(** [config.MAX_NUMBER_BINS], [np.sqrt] and the p-value of
    [sp.stats.shapiro] are taken as parameters. *)
Variable MAX_NUMBER_BINS : Q.
Variable np_sqrt : Q -> Q.
Variable shapiro : list f64 -> f64.

Definition compute_covering_bins (self : Histogram) : result Histogram :=
  d <- match data self with Some d => Ok d | None => Raise TypeError end ;;
  min_data <- py_min d ;;
  max_data <- py_max d ;;
  let bin_width := bin_width (specs self) in
  qmin <- np_div min_data bin_width ;;
  qmax <- np_div max_data bin_width ;;
  let min_boundary := np_floor qmin * bin_width in
  let max_boundary := np_ceil qmax * bin_width in
  let max_boundary :=
    if Qeq_bool min_boundary max_boundary then min_boundary + bin_width
    else max_boundary in
  num_bins <- np_div (max_boundary - min_boundary) bin_width ;;
  if Qltb MAX_NUMBER_BINS num_bins then Raise BinCountExceeded
  else
    bb <- np_arange min_boundary (max_boundary + bin_width) bin_width ;;
    let self := set_bin_boundaries self bb in
    b0 <- py_first bb ;;
    if negb (Qle_bool (b0 - bin_width) min_data) then Raise AssertionError
    else
      bl <- py_last bb ;;
      if negb (Qle_bool max_data (bl + bin_width)) then Raise AssertionError
      else Ok self.

Definition __init__ (data : option (list Q)) (specs : Specs)
    (hist_type motion_type data_type : string) : result Histogram :=
  let self :=
    {| data := data; specs := specs; hist_type := hist_type;
       motion_type := motion_type; data_type := data_type;
       bin_boundaries := None; _bin_midpoints := None; _counts := None;
       _num_samples := None; _mean_per_video := None;
       _std_per_video := None; _pdf := None; _p_normal := None |} in
  match data with
  | Some _ => compute_covering_bins self
  | None => Ok self
  end.

(** *** Properties *)

Definition py_len (d : option (list Q)) : result Z :=
  match d with
  | Some d => Ok (Z.of_nat (length d))
  | None => Raise TypeError
  end.

Definition num_samples (self : Histogram) : result (pyval Z) :=
  match _num_samples self with
  | Some v => Ok v
  | None => n <- py_len (data self) ;; Ok (Scalar n)
  end.

Definition bin_midpoints (self : Histogram) : result (list Q) :=
  match _bin_midpoints self with
  | Some v => Ok v
  | None =>
      bb <- getattr (bin_boundaries self) ;;
      Ok (map (fun b => b + bin_width (specs self) / 2) (removelast bb))
  end.

Definition counts (self : Histogram) : result counts_val :=
  match _counts self with
  | Some v => Ok v
  | None =>
      bb <- getattr (bin_boundaries self) ;;
      d <- match data self with Some d => Ok d | None => Raise TypeError end ;;
      c <- np_histogram d bb ;;
      Ok (IntVec c)
  end.

(** [None] when the counts sum to zero.  The float matrix of a merged
    histogram never gets here: the merge assigns [_pdf] itself. *)
Definition pdf (self : Histogram) : result (option (list Q)) :=
  match _pdf self with
  | Some v => Ok v
  | None =>
      c <- counts self ;;
      match c with
      | IntVec c =>
          if Z.eqb (Zsum c) 0 then Ok None
          else Ok (Some (map (fun x => inject_Z x / inject_Z (Zsum c)) c))
      | FloatMat _ => Raise Unmodelled
      end
  end.

(** [np.mean(self.data)]: a float64 scalar; NaN for an empty array. *)
Definition mean_per_video (self : Histogram) : result (pyval f64) :=
  match _mean_per_video self with
  | Some v => Ok v
  | None =>
      match data self with
      | None => Raise TypeError
      | Some [] => Ok (Scalar NaN)
      | Some d => Ok (Scalar (Fin (Qsum d / inject_Z (Z.of_nat (length d)))))
      end
  end.

Definition std_per_video (self : Histogram) : result (pyval f64) :=
  match _std_per_video self with
  | Some v => Ok v
  | None =>
      num_samples <- py_len (data self) ;;
      if Z.eqb num_samples 1 then Ok (Scalar (Fin 0))
      else
        m <- mean_per_video self ;;
        let d := match data self with Some d => d | None => [] end in
        match m with
        | Scalar (Fin m) =>
            Ok (Scalar (Fin (np_sqrt
                  ((1 / inject_Z (num_samples - 1)) *
                   Qsum (map (fun x => (x - m) ^ 2) d)))))
        | Scalar NaN =>
            match d with
            | [] => Ok (Scalar (Fin (np_sqrt
                        ((1 / inject_Z (num_samples - 1)) * 0))))
            | _ :: _ => Ok (Scalar NaN)
            end
        | Array _ => Raise Unmodelled
        end
  end.

(** [sum(~np.isnan(self.mean_per_video))]: the builtin [sum] iterates over
    its argument, which a numpy scalar does not allow. *)
Definition num_valid_measurements (self : Histogram) : result Z :=
  m <- mean_per_video self ;;
  match m with
  | Scalar _ => Raise TypeError
  | Array xs => Ok (Z.of_nat (length (filter (fun x => negb (np_isnan x)) xs)))
  end.

Definition p_normal (self : Histogram) : result f64 :=
  match _p_normal self with
  | Some v => Ok v
  | None =>
      n <- num_valid_measurements self ;;
      if Z.ltb n 3 then Ok NaN
      else
        m <- mean_per_video self ;;
        match m with
        | Array xs => Ok (shapiro xs)
        | Scalar _ => Raise Unmodelled
        end
  end.

Definition num_videos (self : Histogram) : result Z :=
  match mean_per_video self with
  | Ok (Array xs) => Ok (Z.of_nat (length xs))
  | Ok (Scalar _) => Ok 1%Z
  | Raise TypeError => Ok 1%Z
  | Raise e => Raise e
  end.

Definition no_valid_means (self : Histogram) : result bool :=
  n <- num_valid_measurements self ;; Ok (Z.eqb n 0).

Definition first_bin_midpoint (self : Histogram) : result Q :=
  m <- bin_midpoints self ;; py_first m.

Definition last_bin_midpoint (self : Histogram) : result Q :=
  m <- bin_midpoints self ;; py_last m.

Definition num_bins (self : Histogram) : result Z :=
  m <- bin_midpoints self ;; Ok (Z.of_nat (length m)).

(** *** The merge *)

(** [np.zeros((rows, cols))]. *)
Definition np_zeros (rows cols : nat) : list (list Q) :=
  repeat (repeat 0 cols) rows.

(** The loop [for i in range(num_histograms)].  [start_indices] and
    [end_indices] are float64 arrays ([.round()] keeps the dtype), so
    [cur_start:cur_end] is a slice with float bounds, which numpy refuses
    with [TypeError] (the source notes the warning older versions gave).
    The right-hand side [histograms[i].counts] is evaluated before the
    assignment is attempted.  A rational is never NaN, so no round is
    skipped. *)
Definition fill_counts (idx : list nat) (start_indices end_indices : list Q)
    (histograms : list Histogram) (new_counts : list (list Q))
  : result (list (list Q)) :=
  match idx with
  | [] => Ok new_counts
  | i :: _ =>
      cur_start <- py_index start_indices i ;;
      cur_end <- py_index end_indices i ;;
      h <- py_index histograms i ;;
      c <- counts h ;;
      Raise TypeError
  end.

(** [np.array([x.p for x in histograms])] for a per-video property. *)
Definition np_array_of {A} (p : Histogram -> result (pyval A))
    (histograms : list Histogram) : result (pyval A) :=
  vs <- mapM (fun x => v <- p x ;;
                        match v with
                        | Scalar s => Ok s
                        | Array _ => Raise Unmodelled
                        end) histograms ;;
  Ok (Array vs).

(** [sum(rows, 0)]: the builtin adds the rows to the start value [0]. *)
Definition vec_add (a b : list Q) : list Q :=
  map (fun p => fst p + snd p) (combine a b).

Definition py_sum_rows (rows : list (list Q)) : pyval Q :=
  match rows with
  | [] => Scalar 0
  | r :: rest => Array (fold_left vec_add rest (map (Qplus 0) r))
  end.

Definition merged_histogram_factory (histograms : list Histogram)
  : result Histogram :=
  h0 <- py_index histograms 0 ;;
  merged_hist <- __init__ None (specs h0) (hist_type h0) (motion_type h0)
                   (data_type h0) ;;
  num_bins_l <- mapM num_bins histograms ;;
  first_bin_midpoints <- mapM first_bin_midpoint histograms ;;
  min_bin_midpoint <- py_min first_bin_midpoints ;;
  last_bin_midpoints <- mapM last_bin_midpoint histograms ;;
  max_bin_midpoint <- py_max last_bin_midpoints ;;
  let cur_bin_width := bin_width (specs merged_hist) in
  new_bin_midpoints <- np_arange min_bin_midpoint
                         (max_bin_midpoint + cur_bin_width) cur_bin_width ;;
  start_indices <- mapM (fun f => q <- np_div (f - min_bin_midpoint)
                                         cur_bin_width ;;
                                  Ok (np_round q)) first_bin_midpoints ;;
  let end_indices :=
    map (fun p => fst p + inject_Z (snd p))
      (combine start_indices num_bins_l) in
  let num_histograms := length histograms in
  let new_counts := np_zeros num_histograms (length new_bin_midpoints) in
  new_counts <- fill_counts (seq 0 num_histograms) start_indices end_indices
                  histograms new_counts ;;
  let merged_hist := set_bin_midpoints merged_hist new_bin_midpoints in
  let merged_hist := set_counts merged_hist (FloatMat new_counts) in
  ns <- np_array_of num_samples histograms ;;
  let merged_hist := set_num_samples merged_hist ns in
  ms <- np_array_of mean_per_video histograms ;;
  let merged_hist := set_mean_per_video merged_hist ms in
  ss <- np_array_of std_per_video histograms ;;
  let merged_hist := set_std_per_video merged_hist ss in
  c <- counts merged_hist ;;
  n <- num_samples merged_hist ;;
  match c, n with
  | FloatMat rows, Array ns =>
      match py_sum_rows rows with
      | Array col_sums =>
          p <- mapM (fun x => np_div x (inject_Z (Zsum ns))) col_sums ;;
          Ok (set_pdf merged_hist (Some p))
      | Scalar _ => Raise Unmodelled
      end
  | _, _ => Raise Unmodelled
  end.

End HistogramClass.

(* ================================================================== *)
(** ** Instances used by the statements *)

(** The instance [__init__] returns for raw data: the boundaries are set and
    no lazy attribute exists yet. *)
Definition per_video (d : list Q) (sp : Specs) (ht mt dt : string)
    (bb : list Q) : Histogram :=
  {| data := Some d; specs := sp; hist_type := ht; motion_type := mt;
     data_type := dt; bin_boundaries := Some bb; _bin_midpoints := None;
     _counts := None; _num_samples := None; _mean_per_video := None;
     _std_per_video := None; _pdf := None; _p_normal := None |}.


(** *** Worked examples *)

Definition example_max_bins : Q := 1000000.


(* ================================================================== *)
(** ** The rest of the class *)

(** *** The lazy properties with their cache writes

    The properties above return what a read returns.  Here a read is the
    whole [try: return self._x / except AttributeError: self._x = ...]: it
    gives the value (or the exception) together with the instance as the
    read leaves it. *)

Definition set_p_normal (h : Histogram) (v : f64) : Histogram :=
  {| data := data h; specs := specs h; hist_type := hist_type h;
     motion_type := motion_type h; data_type := data_type h;
     bin_boundaries := bin_boundaries h; _bin_midpoints := _bin_midpoints h;
     _counts := _counts h; _num_samples := _num_samples h;
     _mean_per_video := _mean_per_video h;
     _std_per_video := _std_per_video h; _pdf := _pdf h;
     _p_normal := Some v |}.

Definition read (A : Type) : Type := Histogram -> result A * Histogram.

Definition bind_read {A B} (r : read A) (k : A -> read B) : read B :=
  fun self =>
    match r self with
    | (Ok a, self') => k a self'
    | (Raise e, self') => (Raise e, self')
    end.

Definition raise_read {A} (e : exn) : read A := fun self => (Raise e, self).

Section LazyReads.

Variable np_sqrt : Q -> Q.
Variable shapiro : list f64 -> f64.

Definition read_num_samples : read (pyval Z) := fun self =>
  match _num_samples self with
  | Some v => (Ok v, self)
  | None =>
      match py_len (data self) with
      | Ok n => (Ok (Scalar n), set_num_samples self (Scalar n))
      | Raise e => (Raise e, self)
      end
  end.

Definition read_bin_midpoints : read (list Q) := fun self =>
  match _bin_midpoints self with
  | Some v => (Ok v, self)
  | None =>
      match getattr (bin_boundaries self) with
      | Ok bb =>
          let v := map (fun b => b + bin_width (specs self) / 2)
                     (removelast bb) in
          (Ok v, set_bin_midpoints self v)
      | Raise e => (Raise e, self)
      end
  end.

Definition read_counts : read counts_val := fun self =>
  match _counts self with
  | Some v => (Ok v, self)
  | None =>
      match (bb <- getattr (bin_boundaries self) ;;
             d <- match data self with
                  | Some d => Ok d
                  | None => Raise TypeError
                  end ;;
             np_histogram d bb) with
      | Ok c => (Ok (IntVec c), set_counts self (IntVec c))
      | Raise e => (Raise e, self)
      end
  end.

(** [self.counts] is read once for the test and, when the sum is not zero,
    twice more for the quotient. *)
Definition read_pdf : read (option (list Q)) := fun self =>
  match _pdf self with
  | Some v => (Ok v, self)
  | None =>
      bind_read read_counts (fun c1 =>
        match c1 with
        | IntVec c1 =>
            if Z.eqb (Zsum c1) 0 then
              fun self' => (Ok None, set_pdf self' None)
            else
              bind_read read_counts (fun c2 =>
              bind_read read_counts (fun c3 =>
                match c2, c3 with
                | IntVec c2, IntVec c3 =>
                    let v := Some (map (fun x => inject_Z x
                                                 / inject_Z (Zsum c3)) c2) in
                    fun self' => (Ok v, set_pdf self' v)
                | _, _ => raise_read Unmodelled
                end))
        | FloatMat _ => raise_read Unmodelled
        end) self
  end.

Definition read_mean_per_video : read (pyval f64) := fun self =>
  match _mean_per_video self with
  | Some v => (Ok v, self)
  | None =>
      match data self with
      | None => (Raise TypeError, self)
      | Some [] => (Ok (Scalar NaN), set_mean_per_video self (Scalar NaN))
      | Some d =>
          let v := Scalar (Fin (Qsum d / inject_Z (Z.of_nat (length d)))) in
          (Ok v, set_mean_per_video self v)
      end
  end.

Definition read_std_per_video : read (pyval f64) := fun self =>
  match _std_per_video self with
  | Some v => (Ok v, self)
  | None =>
      match py_len (data self) with
      | Raise e => (Raise e, self)
      | Ok num_samples =>
          if Z.eqb num_samples 1 then
            (Ok (Scalar (Fin 0)), set_std_per_video self (Scalar (Fin 0)))
          else
            bind_read read_mean_per_video (fun m =>
              let d := match data self with Some d => d | None => [] end in
              match m with
              | Scalar (Fin m) =>
                  let v := Scalar (Fin (np_sqrt
                             ((1 / inject_Z (num_samples - 1)) *
                              Qsum (map (fun x => (x - m) ^ 2) d)))) in
                  fun self' => (Ok v, set_std_per_video self' v)
              | Scalar NaN =>
                  match d with
                  | [] =>
                      let v := Scalar (Fin (np_sqrt
                                 ((1 / inject_Z (num_samples - 1)) * 0))) in
                      fun self' => (Ok v, set_std_per_video self' v)
                  | _ :: _ =>
                      fun self' =>
                        (Ok (Scalar NaN),
                         set_std_per_video self' (Scalar NaN))
                  end
              | Array _ => raise_read Unmodelled
              end) self
      end
  end.

Definition read_num_valid_measurements : read Z :=
  bind_read read_mean_per_video (fun m =>
    match m with
    | Scalar _ => raise_read TypeError
    | Array xs =>
        fun self =>
          (Ok (Z.of_nat (length (filter (fun x => negb (np_isnan x)) xs))),
           self)
    end).

Definition read_p_normal : read f64 := fun self =>
  match _p_normal self with
  | Some v => (Ok v, self)
  | None =>
      bind_read read_num_valid_measurements (fun n =>
        if Z.ltb n 3 then fun self' => (Ok NaN, set_p_normal self' NaN)
        else
          bind_read read_mean_per_video (fun m =>
            match m with
            | Array xs =>
                fun self' => (Ok (shapiro xs), set_p_normal self' (shapiro xs))
            | Scalar _ => raise_read Unmodelled
            end)) self
  end.

(** The properties whose read may write a cached attribute, by name, and
    their values in one type.  [num_valid_measurements] has no attribute
    of its own: its read is a read of [mean_per_video]. *)
Inductive lazy_property : Type :=
| NumSamples | BinMidpoints | Counts | Pdf
| MeanPerVideo | StdPerVideo | NumValidMeasurements | PNormal.

Inductive property_value : Type :=
| VSamples (v : pyval Z)
| VMidpoints (v : list Q)
| VCounts (v : counts_val)
| VPdf (v : option (list Q))
| VStat (v : pyval f64)
| VInt (v : Z)
| VFloat (v : f64).

Definition tag {A} (f : A -> property_value) (r : result A)
  : result property_value :=
  match r with
  | Ok a => Ok (f a)
  | Raise e => Raise e
  end.

(** What a read of the property returns. *)
Definition value_of (p : lazy_property) (h : Histogram)
  : result property_value :=
  match p with
  | NumSamples => tag VSamples (num_samples h)
  | BinMidpoints => tag VMidpoints (bin_midpoints h)
  | Counts => tag VCounts (counts h)
  | Pdf => tag VPdf (pdf h)
  | MeanPerVideo => tag VStat (mean_per_video h)
  | StdPerVideo => tag VStat (std_per_video np_sqrt h)
  | NumValidMeasurements => tag VInt (num_valid_measurements h)
  | PNormal => tag VFloat (p_normal shapiro h)
  end.

(** The read with its cache writes. *)
Definition read_property (p : lazy_property) (h : Histogram)
  : result property_value * Histogram :=
  match p with
  | NumSamples => let (r, h') := read_num_samples h in (tag VSamples r, h')
  | BinMidpoints =>
      let (r, h') := read_bin_midpoints h in (tag VMidpoints r, h')
  | Counts => let (r, h') := read_counts h in (tag VCounts r, h')
  | Pdf => let (r, h') := read_pdf h in (tag VPdf r, h')
  | MeanPerVideo => let (r, h') := read_mean_per_video h in (tag VStat r, h')
  | StdPerVideo => let (r, h') := read_std_per_video h in (tag VStat r, h')
  | NumValidMeasurements =>
      let (r, h') := read_num_valid_measurements h in (tag VInt r, h')
  | PNormal => let (r, h') := read_p_normal h in (tag VFloat r, h')
  end.

(** The instance after a sequence of reads. *)
Definition after_reads (ps : list lazy_property) (h : Histogram)
  : Histogram :=
  fold_left (fun h p => snd (read_property p h)) ps h.

(** A lazy attribute is as before, or was missing and now holds the value
    its property returns. *)
Definition slot_filled {A} (old new : option A) (v : result A) : Prop :=
  new = old \/ (old = None /\ exists x, v = Ok x /\ new = Some x).

(** [h'] is [h] with some lazy attributes filled in by reads. *)
Definition cached_from (h h' : Histogram) : Prop :=
  data h' = data h /\ specs h' = specs h /\
  hist_type h' = hist_type h /\ motion_type h' = motion_type h /\
  data_type h' = data_type h /\ bin_boundaries h' = bin_boundaries h /\
  slot_filled (_bin_midpoints h) (_bin_midpoints h') (bin_midpoints h) /\
  slot_filled (_counts h) (_counts h') (counts h) /\
  slot_filled (_num_samples h) (_num_samples h') (num_samples h) /\
  slot_filled (_mean_per_video h) (_mean_per_video h') (mean_per_video h) /\
  slot_filled (_std_per_video h) (_std_per_video h')
    (std_per_video np_sqrt h) /\
  slot_filled (_pdf h) (_pdf h') (pdf h) /\
  slot_filled (_p_normal h) (_p_normal h') (p_normal shapiro h).

(** What one read of a simple property does. *)
Definition read_outcome {A} (rd : read A) (get : Histogram -> result A)
    (slot : Histogram -> option A) (set : Histogram -> A -> Histogram)
    (h : Histogram) : Prop :=
  (exists e, rd h = (Raise e, h) /\ slot h = None /\ get h = Raise e) \/
  (exists v, rd h = (Ok v, h) /\ slot h = Some v /\ get h = Ok v) \/
  (exists v, rd h = (Ok v, set h v) /\ slot h = None /\ get h = Ok v).

(** A read returns the value of the property, leaves an instance that only
    gained cached values, and is repeated by a second read, which changes
    nothing. *)
Definition read_ok {A} (rd : read A) (get : Histogram -> result A)
    (h : Histogram) : Prop :=
  fst (rd h) = get h /\ cached_from h (snd (rd h)) /\
  rd (snd (rd h)) = rd h.

End LazyReads.

(** *** Statistics over the videos *)


(** [all(~np.isnan(self.mean_per_video))]: the builtin [all] iterates over
    its argument, as [sum] does in [num_valid_measurements]. *)
Definition all_means_valid (self : Histogram) : result bool :=
  m <- mean_per_video self ;;
  match m with
  | Array xs => Ok (forallb (fun x => negb (np_isnan x)) xs)
  | Scalar _ => Raise TypeError
  end.




(* ================================================================== *)
(** * The class on binary64

    The definitions above idealise float64 as exact rationals.  In the
    module below a float64 is Rocq's primitive binary64 float: [+], [-],
    [*], [/], the comparisons and [sqrt] are the IEEE 754 operations (round
    to nearest, ties to even) the Python program runs, with their
    infinities and NaN.  What numpy adds to them ([np.floor], [np.ceil],
    [.round()], [np.arange], [np.histogram]) is written out from numpy's
    algorithms.  [np.mean], whose summation order is numpy's own,
    [scipy.stats.shapiro], the attribute [np.NaN] (absent from numpy 2) and
    [config.MAX_NUMBER_BINS] are parameters. *)

Module Binary64.

Import Floats.
Local Open Scope float_scope.
Set Warnings "-inexact-float".

(** *** float64 and integers *)

Definition np_isnan (x : float) : bool := is_nan x.

(** The integer part (towards zero) of a finite float64; [None] for NaN and
    the infinities. *)
Definition float_to_Z (x : float) : option Z :=
  match Prim2SF x with
  | S754_zero _ => Some 0%Z
  | S754_finite s m e =>
      let n := if (0 <=? e)%Z then (Zpos m * 2 ^ e)%Z
               else (Zpos m / 2 ^ (- e))%Z in
      Some (if s then (- n)%Z else n)
  | _ => None
  end.

(** An integer as a float64, rounded to nearest when it has more than 53
    bits. *)
Definition of_Z (z : Z) : float :=
  SF2Prim (binary_normalize prec emax z 0 false).

(** [np.floor] and [np.ceil]: NaN, the infinities, the zeros and the values
    without fractional part are returned as they are. *)
Definition np_floor (x : float) : float :=
  match Prim2SF x with
  | S754_finite s m e =>
      if (0 <=? e)%Z then x
      else
        let q := (Zpos m / 2 ^ (- e))%Z in
        let exact := (Zpos m mod 2 ^ (- e) =? 0)%Z in
        if s then - of_Z (if exact then q else q + 1)
        else of_Z q
  | _ => x
  end.

Definition np_ceil (x : float) : float :=
  match Prim2SF x with
  | S754_finite s m e =>
      if (0 <=? e)%Z then x
      else
        let q := (Zpos m / 2 ^ (- e))%Z in
        let exact := (Zpos m mod 2 ^ (- e) =? 0)%Z in
        if s then - of_Z q
        else of_Z (if exact then q else q + 1)
  | _ => x
  end.

(** [x.round()]: to the nearest integral float64, ties to the even one.
    The result is a float64, not an integer. *)
Definition np_round (x : float) : float :=
  match Prim2SF x with
  | S754_finite s m e =>
      if (0 <=? e)%Z then x
      else
        let q := (Zpos m / 2 ^ (- e))%Z in
        let r := (Zpos m mod 2 ^ (- e))%Z in
        let n := if (2 * r <? 2 ^ (- e))%Z then q
                 else if (2 ^ (- e) <? 2 * r)%Z then (q + 1)%Z
                 else if Z.even q then q else (q + 1)%Z in
        if s then - of_Z n else of_Z n
  | _ => x
  end.

(** [min(xs)] and [max(xs)]: the builtins keep the first element and
    replace it by every later element that compares strictly smaller
    (larger); a comparison with NaN is false. *)
Definition py_min (xs : list float) : result float :=
  match xs with
  | [] => Raise ValueError
  | x :: rest => Ok (fold_left (fun m y => if y <? m then y else m) rest x)
  end.

Definition py_max (xs : list float) : result float :=
  match xs with
  | [] => Raise ValueError
  | x :: rest => Ok (fold_left (fun m y => if m <? y then y else m) rest x)
  end.

(** The largest [npy_intp]. *)
Definition NPY_MAX_INTP : Z := (2 ^ 63 - 1)%Z.

(** [np.arange(start, stop, step)] on float64.  The length is
    [ceil((stop - start) / step)], computed in float64; a NaN there is a
    [ValueError] and a value outside [npy_intp] an [OverflowError].  A
    quotient that is zero although [stop - start] is not (underflow, or an
    infinite step) gives length 0 when it is negative and 1 otherwise.  A
    length that is not positive gives the empty array.  The first two
    elements are [start] and [start + step]; the others are filled as
    [start + i * delta] with [delta = (start + step) - start].  The model
    has no bound on memory. *)
Definition arange_length (start stop step : float) : result Z :=
  let delta := stop - start in
  let tmp_len := delta / step in
  if (tmp_len =? 0) && negb (delta =? 0)
  then Ok (if get_sign tmp_len then 0 else 1)%Z
  else
    let len := np_ceil tmp_len in
    if np_isnan len then Raise ValueError
    else
      match float_to_Z len with
      | None => Raise OverflowError
      | Some n =>
          if (NPY_MAX_INTP <? n)%Z || (n <? - NPY_MAX_INTP - 1)%Z
          then Raise OverflowError
          else Ok n
      end.

Definition arange_item (start step : float) (i : nat) : float :=
  match i with
  | O => start
  | S O => start + step
  | _ => start + of_Z (Z.of_nat i) * ((start + step) - start)
  end.

Definition np_arange (start stop step : float) : result (list float) :=
  n <- arange_length start stop step ;;
  Ok (map (arange_item start step) (seq 0 (Z.to_nat n))).

(** [np.histogram(a, bins=edges)[0]].  Edges that decrease somewhere are a
    [ValueError].  Otherwise numpy sorts the samples, NaN last, and takes,
    for every edge but the last, the number of samples that sort before it
    ([searchsorted], left) and, for the last edge, the number of samples
    that do not sort after it (right); the counts are the differences of
    neighbours.  A NaN sample is below no edge that is a number. *)
Fixpoint decreases (edges : list float) : bool :=
  match edges with
  | a :: ((b :: _) as tl) => (b <? a) || decreases tl
  | _ => false
  end.

Definition sorts_before (e x : float) : bool :=
  if np_isnan e then negb (np_isnan x) else x <? e.

Definition sorts_not_after (e x : float) : bool :=
  if np_isnan e then true else x <=? e.

Definition count_if (p : float -> bool) (a : list float) : Z :=
  Z.of_nat (length (filter p a)).

Fixpoint cum_counts (edges : list float) (a : list float) : list Z :=
  match edges with
  | [] => []
  | [e] => [count_if (sorts_not_after e) a]
  | e :: tl => count_if (sorts_before e) a :: cum_counts tl a
  end.

Fixpoint np_diff (c : list Z) : list Z :=
  match c with
  | x :: ((y :: _) as tl) => (y - x)%Z :: np_diff tl
  | _ => []
  end.

Definition np_histogram (a edges : list float) : result (list Z) :=
  if decreases edges then Raise ValueError
  else Ok (np_diff (cum_counts edges a)).

Definition Zsum (xs : list Z) : Z := fold_left Z.add xs 0%Z.

(** *** Data model *)

(** A float64 array.  The source receives one-dimensional data and, as its
    comment says, [(n,1)] columns; [Array2] lists the rows of an array of
    two (or more) dimensions, each row in [np.ravel] order. *)
Inductive ndarray : Type :=
| Array1 (xs : list float)
| Array2 (rows : list (list float)).

Definition np_ravel (a : ndarray) : list float :=
  match a with
  | Array1 xs => xs
  | Array2 rows => concat rows
  end.

(** [len(a)]: the first dimension. *)
Definition ndarray_len (a : ndarray) : Z :=
  match a with
  | Array1 xs => Z.of_nat (length xs)
  | Array2 rows => Z.of_nat (length rows)
  end.

(** [a.size]: the number of elements. *)
Definition ndarray_size (a : ndarray) : nat := length (np_ravel a).

Record Specs : Type := {
  bin_width : float;
  long_field : string
}.

(** [counts]: the integer vector of [np.histogram], or the float matrix
    (one row per video) the merge assigns. *)
Inductive counts_val : Type :=
| IntVec (c : list Z)
| FloatMat (rows : list (list float)).

(** An instance; a field is [None] when the attribute is missing. *)
Record Histogram : Type := {
  data : option ndarray;                 (* [None]: [data=None] *)
  specs : Specs;
  hist_type : string;
  motion_type : string;
  data_type : string;
  bin_boundaries : option (list float);  (* set by compute_covering_bins *)
  _bin_midpoints : option (list float);
  _counts : option counts_val;
  _num_samples : option (pyval Z);
  _mean_per_video : option (pyval float);
  _std_per_video : option (pyval float);
  _pdf : option (option (list float));   (* [Some None]: [_pdf = None] *)
  _p_normal : option float
}.

Definition set_bin_boundaries (h : Histogram) (v : list float) : Histogram :=
  {| data := data h; specs := specs h; hist_type := hist_type h;
     motion_type := motion_type h; data_type := data_type h;
     bin_boundaries := Some v; _bin_midpoints := _bin_midpoints h;
     _counts := _counts h; _num_samples := _num_samples h;
     _mean_per_video := _mean_per_video h;
     _std_per_video := _std_per_video h; _pdf := _pdf h;
     _p_normal := _p_normal h |}.

Definition set_bin_midpoints (h : Histogram) (v : list float) : Histogram :=
  {| data := data h; specs := specs h; hist_type := hist_type h;
     motion_type := motion_type h; data_type := data_type h;
     bin_boundaries := bin_boundaries h; _bin_midpoints := Some v;
     _counts := _counts h; _num_samples := _num_samples h;
     _mean_per_video := _mean_per_video h;
     _std_per_video := _std_per_video h; _pdf := _pdf h;
     _p_normal := _p_normal h |}.

Definition set_counts (h : Histogram) (v : counts_val) : Histogram :=
  {| data := data h; specs := specs h; hist_type := hist_type h;
     motion_type := motion_type h; data_type := data_type h;
     bin_boundaries := bin_boundaries h; _bin_midpoints := _bin_midpoints h;
     _counts := Some v; _num_samples := _num_samples h;
     _mean_per_video := _mean_per_video h;
     _std_per_video := _std_per_video h; _pdf := _pdf h;
     _p_normal := _p_normal h |}.

Definition set_num_samples (h : Histogram) (v : pyval Z) : Histogram :=
  {| data := data h; specs := specs h; hist_type := hist_type h;
     motion_type := motion_type h; data_type := data_type h;
     bin_boundaries := bin_boundaries h; _bin_midpoints := _bin_midpoints h;
     _counts := _counts h; _num_samples := Some v;
     _mean_per_video := _mean_per_video h;
     _std_per_video := _std_per_video h; _pdf := _pdf h;
     _p_normal := _p_normal h |}.

Definition set_mean_per_video (h : Histogram) (v : pyval float)
  : Histogram :=
  {| data := data h; specs := specs h; hist_type := hist_type h;
     motion_type := motion_type h; data_type := data_type h;
     bin_boundaries := bin_boundaries h; _bin_midpoints := _bin_midpoints h;
     _counts := _counts h; _num_samples := _num_samples h;
     _mean_per_video := Some v;
     _std_per_video := _std_per_video h; _pdf := _pdf h;
     _p_normal := _p_normal h |}.

Definition set_std_per_video (h : Histogram) (v : pyval float)
  : Histogram :=
  {| data := data h; specs := specs h; hist_type := hist_type h;
     motion_type := motion_type h; data_type := data_type h;
     bin_boundaries := bin_boundaries h; _bin_midpoints := _bin_midpoints h;
     _counts := _counts h; _num_samples := _num_samples h;
     _mean_per_video := _mean_per_video h;
     _std_per_video := Some v; _pdf := _pdf h;
     _p_normal := _p_normal h |}.

Definition set_pdf (h : Histogram) (v : option (list float)) : Histogram :=
  {| data := data h; specs := specs h; hist_type := hist_type h;
     motion_type := motion_type h; data_type := data_type h;
     bin_boundaries := bin_boundaries h; _bin_midpoints := _bin_midpoints h;
     _counts := _counts h; _num_samples := _num_samples h;
     _mean_per_video := _mean_per_video h;
     _std_per_video := _std_per_video h; _pdf := Some v;
     _p_normal := _p_normal h |}.

(** What a caller may hand to [create_histogram]. *)
Inductive pyobj : Type :=
| PyNone
| PyOther                        (* an object that is not an [np.ndarray] *)
| NdArray (a : ndarray)          (* a float64 array, NaN and inf included *)
| NdArrayOther (size : nat).     (* an [np.ndarray] of another dtype *)

Section HistogramClass.

(** [config.MAX_NUMBER_BINS], [np.mean] on the elements in [np.ravel] order,
    [scipy.stats.shapiro(...)[1]], and the result of reading [np.NaN]
    ([Raise AttributeError] on numpy 2, [Ok nan] before). *)
Variable MAX_NUMBER_BINS : float.
Variable np_mean : list float -> float.
Variable shapiro : list float -> float.
Variable np_NaN : result float.

(** *** compute_covering_bins *)

(** The snapped boundaries and the bin count the constructor checks. *)
Definition min_boundary (min_data bin_width : float) : float :=
  np_floor (min_data / bin_width) * bin_width.

Definition max_boundary (min_data max_data bin_width : float) : float :=
  let max_boundary := np_ceil (max_data / bin_width) * bin_width in
  if min_boundary min_data bin_width =? max_boundary
  then min_boundary min_data bin_width + bin_width
  else max_boundary.

Definition checked_num_bins (min_data max_data bin_width : float) : float :=
  (max_boundary min_data max_data bin_width
   - min_boundary min_data bin_width) / bin_width.

Definition compute_covering_bins (self : Histogram) : result Histogram :=
  d <- match data self with Some d => Ok d | None => Raise TypeError end ;;
  min_data <- py_min (np_ravel d) ;;
  max_data <- py_max (np_ravel d) ;;
  let bin_width := bin_width (specs self) in
  let min_boundary := min_boundary min_data bin_width in
  let max_boundary := max_boundary min_data max_data bin_width in
  let num_bins := (max_boundary - min_boundary) / bin_width in
  if MAX_NUMBER_BINS <? num_bins then Raise BinCountExceeded
  else
    bb <- np_arange min_boundary (max_boundary + bin_width) bin_width ;;
    let self := set_bin_boundaries self bb in
    b0 <- py_first bb ;;
    if negb (b0 - bin_width <=? min_data) then Raise AssertionError
    else
      bl <- py_last bb ;;
      if negb (max_data <=? bl + bin_width) then Raise AssertionError
      else Ok self.

Definition __init__ (data : option ndarray) (specs : Specs)
    (hist_type motion_type data_type : string) : result Histogram :=
  let self :=
    {| data := data; specs := specs; hist_type := hist_type;
       motion_type := motion_type; data_type := data_type;
       bin_boundaries := None; _bin_midpoints := None; _counts := None;
       _num_samples := None; _mean_per_video := None;
       _std_per_video := None; _pdf := None; _p_normal := None |} in
  match data with
  | Some _ => compute_covering_bins self
  | None => Ok self
  end.

(** An array of another dtype passes the guard like any array; what the
    constructor does with it is outside this embedding. *)
Definition create_histogram (data : pyobj) (specs : Specs)
    (hist_type motion_type data_type : string) : result (option Histogram) :=
  match data with
  | PyNone => Ok None
  | PyOther => Ok None
  | NdArray a =>
      if Nat.eqb (ndarray_size a) 0 then Ok None
      else
        h <- __init__ (Some a) specs hist_type motion_type data_type ;;
        Ok (Some h)
  | NdArrayOther size =>
      if Nat.eqb size 0 then Ok None else Raise Unmodelled
  end.

(** *** Properties *)

Definition py_len (d : option ndarray) : result Z :=
  match d with
  | Some d => Ok (ndarray_len d)
  | None => Raise TypeError
  end.

Definition num_samples (self : Histogram) : result (pyval Z) :=
  match _num_samples self with
  | Some v => Ok v
  | None => n <- py_len (data self) ;; Ok (Scalar n)
  end.

Definition bin_midpoints (self : Histogram) : result (list float) :=
  match _bin_midpoints self with
  | Some v => Ok v
  | None =>
      bb <- getattr (bin_boundaries self) ;;
      Ok (map (fun b => b + bin_width (specs self) / 2) (removelast bb))
  end.

Definition counts (self : Histogram) : result counts_val :=
  match _counts self with
  | Some v => Ok v
  | None =>
      bb <- getattr (bin_boundaries self) ;;
      d <- match data self with Some d => Ok d | None => Raise TypeError end ;;
      c <- np_histogram (np_ravel d) bb ;;
      Ok (IntVec c)
  end.

(** [None] when the counts sum to zero; otherwise each count divided by
    the sum, both converted to float64. *)
Definition pdf (self : Histogram) : result (option (list float)) :=
  match _pdf self with
  | Some v => Ok v
  | None =>
      c <- counts self ;;
      match c with
      | IntVec c =>
          if Z.eqb (Zsum c) 0 then Ok None
          else Ok (Some (map (fun x => of_Z x / of_Z (Zsum c)) c))
      | FloatMat _ => Raise Unmodelled
      end
  end.

(** [np.mean(self.data)]: a float64 scalar whatever the shape. *)
Definition mean_per_video (self : Histogram) : result (pyval float) :=
  match _mean_per_video self with
  | Some v => Ok v
  | None =>
      match data self with
      | None => Raise TypeError
      | Some d => Ok (Scalar (np_mean (np_ravel d)))
      end
  end.

(** The builtin [sum] adds the items of its argument to the integer 0: the
    elements of one-dimensional data (a scalar), the rows of data with more
    dimensions (an array). *)
Definition vec_add (a b : list float) : list float :=
  map (fun p => fst p + snd p) (combine a b).

Definition py_sum_floats (xs : list float) : float := fold_left add xs 0.

Definition py_sum_rows (rows : list (list float)) : pyval float :=
  match rows with
  | [] => Scalar 0
  | r :: rest => Array (fold_left vec_add rest (map (add 0) r))
  end.

Definition std_per_video (self : Histogram) : result (pyval float) :=
  match _std_per_video self with
  | Some v => Ok v
  | None =>
      num_samples <- py_len (data self) ;;
      if Z.eqb num_samples 1 then Ok (Scalar 0)
      else
        let c := 1 / of_Z (num_samples - 1) in
        m <- mean_per_video self ;;
        match m, data self with
        | Scalar m, Some (Array1 xs) =>
            Ok (Scalar (sqrt (c * py_sum_floats
                                    (map (fun x => (x - m) * (x - m)) xs))))
        | Scalar m, Some (Array2 rows) =>
            match py_sum_rows
                    (map (map (fun x => (x - m) * (x - m))) rows) with
            | Scalar s => Ok (Scalar (sqrt (c * s)))
            | Array s => Ok (Array (map (fun x => sqrt (c * x)) s))
            end
        | _, _ => Raise Unmodelled
        end
  end.

(** [sum(~np.isnan(self.mean_per_video))]: the builtin [sum] iterates over
    its argument, which a numpy scalar does not allow. *)
Definition num_valid_measurements (self : Histogram) : result Z :=
  m <- mean_per_video self ;;
  match m with
  | Scalar _ => Raise TypeError
  | Array xs => Ok (Z.of_nat (length (filter (fun x => negb (np_isnan x)) xs)))
  end.

Definition p_normal (self : Histogram) : result float :=
  match _p_normal self with
  | Some v => Ok v
  | None =>
      n <- num_valid_measurements self ;;
      if Z.ltb n 3 then np_NaN
      else
        m <- mean_per_video self ;;
        match m with
        | Array xs => Ok (shapiro xs)
        | Scalar _ => Raise Unmodelled
        end
  end.

Definition num_videos (self : Histogram) : result Z :=
  match mean_per_video self with
  | Ok (Array xs) => Ok (Z.of_nat (length xs))
  | Ok (Scalar _) => Ok 1%Z
  | Raise TypeError => Ok 1%Z
  | Raise e => Raise e
  end.

Definition first_bin_midpoint (self : Histogram) : result float :=
  m <- bin_midpoints self ;; py_first m.

Definition last_bin_midpoint (self : Histogram) : result float :=
  m <- bin_midpoints self ;; py_last m.

Definition num_bins (self : Histogram) : result Z :=
  m <- bin_midpoints self ;; Ok (Z.of_nat (length m)).

Definition description (self : Histogram) : string :=
  (long_field (specs self) ++ " " ++ ", motion_type:" ++ motion_type self
   ++ ", data_type: " ++ data_type self)%string.

(** *** The merge *)

(** [np.zeros((rows, cols))]. *)
Definition np_zeros (rows cols : nat) : list (list float) :=
  repeat (repeat 0 cols) rows.

(** The loop [for i in range(num_histograms)].  [start_indices] and
    [end_indices] are float64 arrays ([.round()] keeps the dtype), so
    [new_counts[i, cur_start:cur_end] = ...] is an assignment to a slice
    with float bounds, which numpy refuses with [TypeError].  The
    right-hand side [histograms[i].counts] is evaluated first.  A round
    whose start index is NaN is skipped. *)
Fixpoint fill_counts (idx : list nat) (start_indices end_indices : list float)
    (histograms : list Histogram) (new_counts : list (list float))
  : result (list (list float)) :=
  match idx with
  | [] => Ok new_counts
  | i :: idx' =>
      cur_start <- py_index start_indices i ;;
      if np_isnan cur_start
      then fill_counts idx' start_indices end_indices histograms new_counts
      else
        cur_end <- py_index end_indices i ;;
        h <- py_index histograms i ;;
        c <- counts h ;;
        Raise TypeError
  end.

(** [np.array([x.p for x in histograms])] for a per-video property. *)
Definition np_array_of {A} (p : Histogram -> result (pyval A))
    (histograms : list Histogram) : result (pyval A) :=
  vs <- mapM (fun x => v <- p x ;;
                        match v with
                        | Scalar s => Ok s
                        | Array _ => Raise Unmodelled
                        end) histograms ;;
  Ok (Array vs).

(** [(first_bin_midpoints - min_bin_midpoint) / cur_bin_width], rounded. *)
Definition start_indices_of (first_bin_midpoints : list float)
    (min_bin_midpoint cur_bin_width : float) : list float :=
  map (fun f => np_round ((f - min_bin_midpoint) / cur_bin_width))
    first_bin_midpoints.

Definition merged_histogram_factory (histograms : list Histogram)
  : result Histogram :=
  h0 <- py_index histograms 0 ;;
  merged_hist <- __init__ None (specs h0) (hist_type h0) (motion_type h0)
                   (data_type h0) ;;
  num_bins_l <- mapM num_bins histograms ;;
  first_bin_midpoints <- mapM first_bin_midpoint histograms ;;
  min_bin_midpoint <- py_min first_bin_midpoints ;;
  last_bin_midpoints <- mapM last_bin_midpoint histograms ;;
  max_bin_midpoint <- py_max last_bin_midpoints ;;
  let cur_bin_width := bin_width (specs merged_hist) in
  new_bin_midpoints <- np_arange min_bin_midpoint
                         (max_bin_midpoint + cur_bin_width) cur_bin_width ;;
  let start_indices :=
    start_indices_of first_bin_midpoints min_bin_midpoint cur_bin_width in
  let end_indices :=
    map (fun p => fst p + of_Z (snd p)) (combine start_indices num_bins_l) in
  let num_histograms := length histograms in
  let new_counts := np_zeros num_histograms (length new_bin_midpoints) in
  new_counts <- fill_counts (seq 0 num_histograms) start_indices end_indices
                  histograms new_counts ;;
  let merged_hist := set_bin_midpoints merged_hist new_bin_midpoints in
  let merged_hist := set_counts merged_hist (FloatMat new_counts) in
  ns <- np_array_of num_samples histograms ;;
  let merged_hist := set_num_samples merged_hist ns in
  ms <- np_array_of mean_per_video histograms ;;
  let merged_hist := set_mean_per_video merged_hist ms in
  ss <- np_array_of std_per_video histograms ;;
  let merged_hist := set_std_per_video merged_hist ss in
  c <- counts merged_hist ;;
  n <- num_samples merged_hist ;;
  match c, n with
  | FloatMat rows, Array ns =>
      match py_sum_rows rows with
      | Array col_sums =>
          Ok (set_pdf merged_hist
                (Some (map (fun x => x / of_Z (Zsum ns)) col_sums)))
      | Scalar _ => Raise Unmodelled
      end
  | _, _ => Raise Unmodelled
  end.

(** *** plot_versus

    The axes object belongs to matplotlib: a call on it is recorded with
    its arguments, in the order the calls are made.  What matplotlib does
    with a pdf that is [None] is outside this embedding. *)
Inductive ax_call : Type :=
| fill (x y : list float) (alpha : float) (color label : string)
| set_xlabel (s : string) (fontsize : Z)
| set_ylabel (s : string) (fontsize : Z)
| set_title (s : string) (fontsize : Z)
| set_xlim (left right : float)
| spine_set_visible (spine : string) (b : bool)
| xaxis_tick_bottom
| yaxis_tick_left
| legend (loc : string).

Definition plot_versus (ax : list ax_call) (exp_hist ctl_hist : Histogram)
  : result (option (list ax_call)) :=
  if negb (String.eqb (long_field (specs exp_hist))
             (long_field (specs ctl_hist)))
  then Ok None
  else
    ctl_bins <- bin_midpoints ctl_hist ;;
    ctl_y_values <- pdf ctl_hist ;;
    exp_bins <- bin_midpoints exp_hist ;;
    exp_y_values <- pdf exp_hist ;;
    firsts <- mapM py_first [ctl_bins; exp_bins] ;;
    min_x <- py_min firsts ;;
    lasts <- mapM py_last [ctl_bins; exp_bins] ;;
    max_x <- py_min lasts ;;
    match ctl_y_values, exp_y_values with
    | Some ctl_y_values, Some exp_y_values =>
        Ok (Some (ax ++
              [fill ctl_bins ctl_y_values 1 "0.85" "Control";
               fill exp_bins exp_y_values 0.5 "g" "Experiment";
               set_xlabel (long_field (specs exp_hist)) 16;
               set_ylabel "bin pdf" 16;
               set_title (description exp_hist) 12;
               set_xlim min_x max_x;
               spine_set_visible "top" false;
               spine_set_visible "right" false;
               xaxis_tick_bottom;
               yaxis_tick_left;
               legend "upper left"]))
    | _, _ => Raise Unmodelled
    end.

End HistogramClass.

(** *** Worked inputs *)

(** [MAX_NUMBER_BINS] of the examples, the mean of a short array (a sum
    from the left on fewer than eight elements, divided by their number),
    and parameters whose value no example depends on. *)
Definition example_max_bins : float := 1000000.
Definition example_mean (xs : list float) : float :=
  fold_left add xs 0 / of_Z (Z.of_nat (length xs)).
Definition example_shapiro (_ : list float) : float := nan.
Definition example_np_NaN : result float := Ok nan.

Definition specs_1 : Specs := {| bin_width := 1; long_field := "f" |}.
Definition specs_01 : Specs := {| bin_width := 0.1; long_field := "f" |}.

(** The instance the constructor returns for raw data. *)
Definition per_video (d : ndarray) (sp : Specs) (ht mt dt : string)
    (bb : list float) : Histogram :=
  {| data := Some d; specs := sp; hist_type := ht; motion_type := mt;
     data_type := dt; bin_boundaries := Some bb; _bin_midpoints := None;
     _counts := None; _num_samples := None; _mean_per_video := None;
     _std_per_video := None; _pdf := None; _p_normal := None |}.

(** Histogram A of the merge example: midpoints [1.5, 2.5, 3.5], counts [2, 3, 1]. *)
Definition data_A : ndarray := Array1 [1.2; 1.7; 2.1; 2.5; 2.9; 3.5].
Definition hist_A : Histogram :=
  per_video data_A specs_1 "motion" "all" "all" [1; 2; 3; 4].

(** Histogram B of the merge example: midpoints [2.5, 3.5, 4.5, 5.5], counts
    [1, 4, 2, 0]. *)
Definition data_B : ndarray := Array1 [2.5; 3.1; 3.2; 3.3; 3.4; 4.1; 4.2].
Definition hist_B : Histogram :=
  per_video data_B specs_1 "motion" "all" "all" [2; 3; 4; 5; 6].

(** A second constructed histogram, reaching 5.5. *)
Definition data_C : ndarray :=
  Array1 [2.5; 3.1; 3.2; 3.3; 3.4; 4.1; 4.2; 5.5].
Definition hist_C : Histogram :=
  per_video data_C specs_1 "motion" "all" "all" [2; 3; 4; 5; 6].

End Binary64.

(* ================================================================== *)
(** * Facts in exact arithmetic *)



Tactic Notation "inv_bind" hyp(H) "as" ident(x) ident(E) :=
  match type of H with
  | bind ?c _ = Ok _ =>
      destruct c as [x|] eqn:E; [cbn [bind] in H | discriminate H]
  end.

(* ================================================================== *)
(** ** Inputs the constructor and the merge refuse *)

Lemma mapM_raise {A B} (f : A -> result B) (e : exn) (xs : list A) :
  (forall x, In x xs -> (exists y, f x = Ok y) \/ f x = Raise e) ->
  Exists (fun x => f x = Raise e) xs ->
  mapM f xs = Raise e.
Proof.
  intros Hall Hex. induction Hex as [x xs Hx | x xs _ IH].
  - simpl. rewrite Hx. reflexivity.
  - simpl. destruct (Hall x (or_introl eq_refl)) as [(y & Hy) | Hr].
    + rewrite Hy. cbn [bind]. rewrite IH; [reflexivity|].
      intros z Hz. apply Hall. now right.
    + rewrite Hr. reflexivity.
Qed.

Section ConstructionAndMergeErrors.

Variable MAX_NUMBER_BINS : Q.
Variable np_sqrt : Q -> Q.


(** X7.  The merge of an empty list raises [IndexError]; the merge of a
    list in which some histogram has neither cached midpoints nor
    boundaries (an instance made with [data=None], say) raises
    [AttributeError]. *)
Theorem merge_rejects_empty_and_unbinned_inputs :
  merged_histogram_factory MAX_NUMBER_BINS np_sqrt [] = Raise IndexError /\
  forall hs,
    Exists (fun h => _bin_midpoints h = None /\ bin_boundaries h = None) hs ->
    merged_histogram_factory MAX_NUMBER_BINS np_sqrt hs
    = Raise AttributeError.
Proof.
  split; [reflexivity|].
  intros hs Hex.
  assert (Hnb : mapM num_bins hs = Raise AttributeError).
  { apply mapM_raise.
    - intros h _. unfold num_bins, bin_midpoints.
      destruct (_bin_midpoints h); [left; eexists; reflexivity|].
      destruct (bin_boundaries h); [left; eexists; reflexivity|].
      right. reflexivity.
    - eapply Exists_impl; [|exact Hex]. intros h [E1 E2].
      unfold num_bins, bin_midpoints. rewrite E1, E2. reflexivity. }
  unfold merged_histogram_factory.
  destruct hs as [|h0 hs']; [inversion Hex|].
  cbn [py_index nth_error bind __init__]. rewrite Hnb. reflexivity.
Qed.

End ConstructionAndMergeErrors.

(* ================================================================== *)
(** ** Lazy reads and their caches *)

Lemma slot_filled_refl {A} (old : option A) (v : result A) :
  slot_filled old old v.
Proof. left. reflexivity. Qed.

Lemma slot_filled_trans {A} (old mid new : option A) (v : result A) :
  slot_filled old mid v -> slot_filled mid new v -> slot_filled old new v.
Proof.
  intros [-> | (E0 & x & Ev & E1)] [-> | (F0 & y & Fv & F1)].
  - left. reflexivity.
  - right. split; [exact F0|]. exists y. split; assumption.
  - right. split; [exact E0|]. exists x. split; assumption.
  - congruence.
Qed.

Section LazyReadFacts.

Variable np_sqrt : Q -> Q.
Variable shapiro : list f64 -> f64.

Local Abbreviation cached := (cached_from np_sqrt shapiro).
Local Abbreviation reads_ok := (read_ok np_sqrt shapiro).

Lemma cached_from_refl (h : Histogram) : cached h h.
Proof.
  unfold cached_from.
  repeat (split; [reflexivity || apply slot_filled_refl|]).
  apply slot_filled_refl.
Qed.

Section Agree.

Variables h h' : Histogram.
Hypothesis C : cached h h'.

Lemma agree_bin_midpoints : bin_midpoints h' = bin_midpoints h.
Proof.
  destruct C as (Ed & Es & _ & _ & _ & Eb & S & _).
  destruct S as [E | (E0 & x & Ev & E1)].
  - unfold bin_midpoints. now rewrite E, Eb, Es.
  - rewrite Ev. unfold bin_midpoints. now rewrite E1.
Qed.

Lemma agree_counts : counts h' = counts h.
Proof.
  destruct C as (Ed & Es & _ & _ & _ & Eb & _ & S & _).
  destruct S as [E | (E0 & x & Ev & E1)].
  - unfold counts. now rewrite E, Eb, Ed.
  - rewrite Ev. unfold counts. now rewrite E1.
Qed.

Lemma agree_num_samples : num_samples h' = num_samples h.
Proof.
  destruct C as (Ed & Es & _ & _ & _ & Eb & _ & _ & S & _).
  destruct S as [E | (E0 & x & Ev & E1)].
  - unfold num_samples. now rewrite E, Ed.
  - rewrite Ev. unfold num_samples. now rewrite E1.
Qed.

Lemma agree_mean_per_video : mean_per_video h' = mean_per_video h.
Proof.
  destruct C as (Ed & Es & _ & _ & _ & Eb & _ & _ & _ & S & _).
  destruct S as [E | (E0 & x & Ev & E1)].
  - unfold mean_per_video. now rewrite E, Ed.
  - rewrite Ev. unfold mean_per_video. now rewrite E1.
Qed.

Lemma agree_std_per_video :
  std_per_video np_sqrt h' = std_per_video np_sqrt h.
Proof.
  pose proof agree_mean_per_video as M.
  destruct C as (Ed & Es & _ & _ & _ & Eb & _ & _ & _ & _ & S & _).
  destruct S as [E | (E0 & x & Ev & E1)].
  - unfold std_per_video. now rewrite E, Ed, M.
  - rewrite Ev. unfold std_per_video. now rewrite E1.
Qed.

Lemma agree_pdf : pdf h' = pdf h.
Proof.
  pose proof agree_counts as M.
  destruct C as (Ed & Es & _ & _ & _ & Eb & _ & _ & _ & _ & _ & S & _).
  destruct S as [E | (E0 & x & Ev & E1)].
  - unfold pdf. now rewrite E, M.
  - rewrite Ev. unfold pdf. now rewrite E1.
Qed.

Lemma agree_num_valid_measurements :
  num_valid_measurements h' = num_valid_measurements h.
Proof.
  unfold num_valid_measurements. now rewrite agree_mean_per_video.
Qed.

Lemma agree_p_normal : p_normal shapiro h' = p_normal shapiro h.
Proof.
  pose proof agree_num_valid_measurements as N.
  pose proof agree_mean_per_video as M.
  destruct C as (Ed & Es & _ & _ & _ & Eb & _ & _ & _ & _ & _ & _ & S).
  destruct S as [E | (E0 & x & Ev & E1)].
  - unfold p_normal. now rewrite E, N, M.
  - rewrite Ev. unfold p_normal. now rewrite E1.
Qed.

Lemma agree_value_of (p : lazy_property) :
  value_of np_sqrt shapiro p h' = value_of np_sqrt shapiro p h.
Proof.
  destruct p; unfold value_of;
    rewrite ?agree_num_samples, ?agree_bin_midpoints, ?agree_counts,
      ?agree_pdf, ?agree_mean_per_video, ?agree_std_per_video,
      ?agree_num_valid_measurements, ?agree_p_normal; reflexivity.
Qed.

End Agree.

Lemma cached_from_trans (h h1 h2 : Histogram) :
  cached h h1 -> cached h1 h2 -> cached h h2.
Proof.
  intros C1 C2.
  pose proof (agree_bin_midpoints C1) as A1.
  pose proof (agree_counts C1) as A2.
  pose proof (agree_num_samples C1) as A3.
  pose proof (agree_mean_per_video C1) as A4.
  pose proof (agree_std_per_video C1) as A5.
  pose proof (agree_pdf C1) as A6.
  pose proof (agree_p_normal C1) as A7.
  destruct C1 as (D1 & D2 & D3 & D4 & D5 & D6 & S1 & S2 & S3 & S4 & S5
                  & S6 & S7).
  destruct C2 as (E1 & E2 & E3 & E4 & E5 & E6 & T1 & T2 & T3 & T4 & T5
                  & T6 & T7).
  rewrite A1 in T1. rewrite A2 in T2. rewrite A3 in T3. rewrite A4 in T4.
  rewrite A5 in T5. rewrite A6 in T6. rewrite A7 in T7.
  unfold cached_from.
  repeat (split; [congruence || (eapply slot_filled_trans; eassumption)|]).
  eapply slot_filled_trans; eassumption.
Qed.

Ltac cached_by_set :=
  unfold cached_from;
  cbn [data specs hist_type motion_type data_type bin_boundaries
       _bin_midpoints _counts _num_samples _mean_per_video _std_per_video
       _pdf _p_normal set_bin_midpoints set_counts set_num_samples
       set_mean_per_video set_std_per_video set_pdf set_p_normal];
  repeat split;
  first [ reflexivity
        | left; reflexivity
        | right; split; [assumption|]; eexists; split;
          [eassumption | reflexivity] ].

Lemma read_num_samples_cases (h : Histogram) :
  read_outcome read_num_samples num_samples _num_samples set_num_samples h.
Proof.
  unfold read_outcome, read_num_samples, num_samples.
  destruct (_num_samples h) as [v|] eqn:E.
  - right. left. exists v. auto.
  - destruct (py_len (data h)) as [n|e].
    + right. right. eexists. repeat split.
    + left. exists e. auto.
Qed.

Lemma read_bin_midpoints_cases (h : Histogram) :
  read_outcome read_bin_midpoints bin_midpoints _bin_midpoints
    set_bin_midpoints h.
Proof.
  unfold read_outcome, read_bin_midpoints, bin_midpoints.
  destruct (_bin_midpoints h) as [v|] eqn:E.
  - right. left. exists v. auto.
  - destruct (getattr (bin_boundaries h)) as [bb|e].
    + right. right. eexists. repeat split.
    + left. exists e. auto.
Qed.

Lemma read_counts_cases (h : Histogram) :
  read_outcome read_counts counts _counts set_counts h.
Proof.
  unfold read_outcome, read_counts, counts.
  destruct (_counts h) as [v|] eqn:E.
  - right. left. exists v. auto.
  - destruct (getattr (bin_boundaries h)) as [bb|e]; cbn [bind].
    2:{ left. exists e. auto. }
    destruct (data h) as [d|]; cbn [bind].
    2:{ left. exists TypeError. auto. }
    destruct (np_histogram d bb) as [c|e]; cbn [bind].
    + right. right. eexists. repeat split.
    + left. exists e. auto.
Qed.

Lemma read_mean_per_video_cases (h : Histogram) :
  read_outcome read_mean_per_video mean_per_video _mean_per_video
    set_mean_per_video h.
Proof.
  unfold read_outcome, read_mean_per_video, mean_per_video.
  destruct (_mean_per_video h) as [v|] eqn:E.
  - right. left. exists v. auto.
  - destruct (data h) as [[|x d]|].
    + right. right. eexists. repeat split.
    + right. right. eexists. repeat split.
    + left. exists TypeError. auto.
Qed.

(** A computed mean is a scalar and computed counts are an integer vector:
    an array of means or a matrix of counts can only come from the cache. *)
Lemma computed_mean_is_scalar (h : Histogram) (xs : list f64) :
  _mean_per_video h = None -> mean_per_video h <> Ok (Array xs).
Proof.
  intros E. unfold mean_per_video. rewrite E.
  destruct (data h) as [[|x d]|]; discriminate.
Qed.

Lemma computed_counts_are_a_vector (h : Histogram) (m : list (list Q)) :
  _counts h = None -> counts h <> Ok (FloatMat m).
Proof.
  intros E. unfold counts. rewrite E.
  destruct (getattr (bin_boundaries h)); cbn [bind]; [|discriminate].
  destruct (data h); cbn [bind]; [|discriminate].
  destruct (np_histogram _ _); discriminate.
Qed.

Lemma read_outcome_ok {A} (rd : read A) (get : Histogram -> result A)
    (slot : Histogram -> option A) (set : Histogram -> A -> Histogram)
    (h : Histogram) :
  read_outcome rd get slot set h ->
  (forall v, slot h = None -> get h = Ok v -> cached h (set h v)) ->
  (forall v, slot h = None -> get h = Ok v ->
             rd (set h v) = (Ok v, set h v)) ->
  reads_ok rd get h.
Proof.
  intros [(e & R & S & G) | [(v & R & S & G) | (v & R & S & G)]] HC HR;
    unfold reads_ok; rewrite R; cbn [fst snd].
  - rewrite R. auto using cached_from_refl.
  - rewrite R. auto using cached_from_refl.
  - rewrite (HR v S G). auto.
Qed.

Lemma read_num_samples_ok (h : Histogram) :
  reads_ok read_num_samples num_samples h.
Proof.
  apply (read_outcome_ok (read_num_samples_cases h)).
  - intros v S G. cached_by_set.
  - intros v S G. reflexivity.
Qed.

Lemma read_bin_midpoints_ok (h : Histogram) :
  reads_ok read_bin_midpoints bin_midpoints h.
Proof.
  apply (read_outcome_ok (read_bin_midpoints_cases h)).
  - intros v S G. cached_by_set.
  - intros v S G. reflexivity.
Qed.

Lemma read_counts_ok (h : Histogram) : reads_ok read_counts counts h.
Proof.
  apply (read_outcome_ok (read_counts_cases h)).
  - intros v S G. cached_by_set.
  - intros v S G. reflexivity.
Qed.

Lemma read_mean_per_video_ok (h : Histogram) :
  reads_ok read_mean_per_video mean_per_video h.
Proof.
  apply (read_outcome_ok (read_mean_per_video_cases h)).
  - intros v S G. cached_by_set.
  - intros v S G. reflexivity.
Qed.

Lemma read_ok_intro {A} (rd : read A) (get : Histogram -> result A)
    (h h1 : Histogram) (r : result A) :
  rd h = (r, h1) -> r = get h -> cached h h1 -> rd h1 = (r, h1) ->
  reads_ok rd get h.
Proof.
  intros R G C R1. unfold reads_ok. rewrite R. cbn [fst snd].
  rewrite R1. auto.
Qed.

Lemma read_pdf_ok (h : Histogram) : reads_ok read_pdf pdf h.
Proof.
  destruct (_pdf h) as [v|] eqn:EP.
  { assert (R : read_pdf h = (Ok v, h))
      by (unfold read_pdf; rewrite EP; reflexivity).
    apply (@read_ok_intro _ read_pdf pdf _ _ _ R);
      [unfold pdf; rewrite EP; reflexivity | apply cached_from_refl
      | exact R]. }
  destruct (read_counts_cases h)
    as [(e & R & S & G) | [(v & R & S & G) | (v & R & S & G)]].
  - assert (R' : read_pdf h = (Raise e, h))
      by (unfold read_pdf, bind_read; rewrite EP, R; reflexivity).
    apply (@read_ok_intro _ read_pdf pdf _ _ _ R');
      [unfold pdf; rewrite EP, G; reflexivity | apply cached_from_refl
      | exact R'].
  - destruct v as [c|m].
    + destruct (Z.eqb (Zsum c) 0) eqn:Ez.
      * assert (P : pdf h = Ok None)
          by (unfold pdf; rewrite EP, G; cbn [bind]; rewrite Ez; reflexivity).
        assert (R' : read_pdf h = (Ok None, set_pdf h None))
          by (unfold read_pdf, bind_read; rewrite EP, R, Ez; reflexivity).
        apply (@read_ok_intro _ read_pdf pdf _ _ _ R');
          [symmetry; exact P | cached_by_set | reflexivity].
      * set (v := Some (map (fun x => inject_Z x / inject_Z (Zsum c)) c)).
        assert (P : pdf h = Ok v)
          by (unfold pdf; rewrite EP, G; cbn [bind]; rewrite Ez; reflexivity).
        assert (R' : read_pdf h = (Ok v, set_pdf h v)).
        { unfold read_pdf, bind_read. rewrite EP, R, Ez.
          repeat (progress (rewrite ?R; cbv beta iota)). reflexivity. }
        apply (@read_ok_intro _ read_pdf pdf _ _ _ R');
          [symmetry; exact P | cached_by_set | reflexivity].
    + assert (R' : read_pdf h = (Raise Unmodelled, h))
        by (unfold read_pdf, bind_read; rewrite EP, R; reflexivity).
      apply (@read_ok_intro _ read_pdf pdf _ _ _ R');
        [unfold pdf; rewrite EP, G; reflexivity | apply cached_from_refl
        | exact R'].
  - destruct v as [c|m];
      [|exfalso; exact (@computed_counts_are_a_vector _ _ S G)].
    assert (R1 : read_counts (set_counts h (IntVec c))
                 = (Ok (IntVec c), set_counts h (IntVec c))) by reflexivity.
    destruct (Z.eqb (Zsum c) 0) eqn:Ez.
    + assert (P : pdf h = Ok None)
        by (unfold pdf; rewrite EP, G; cbn [bind]; rewrite Ez; reflexivity).
      assert (R' : read_pdf h
                   = (Ok None, set_pdf (set_counts h (IntVec c)) None))
        by (unfold read_pdf, bind_read; rewrite EP, R, Ez; reflexivity).
      apply (@read_ok_intro _ read_pdf pdf _ _ _ R');
        [symmetry; exact P | cached_by_set | reflexivity].
    + set (v := Some (map (fun x => inject_Z x / inject_Z (Zsum c)) c)).
      assert (P : pdf h = Ok v)
        by (unfold pdf; rewrite EP, G; cbn [bind]; rewrite Ez; reflexivity).
      assert (R' : read_pdf h = (Ok v, set_pdf (set_counts h (IntVec c)) v)).
      { unfold read_pdf, bind_read. rewrite EP, R, Ez.
        repeat (progress (rewrite ?R1; cbv beta iota)). reflexivity. }
      apply (@read_ok_intro _ read_pdf pdf _ _ _ R');
        [symmetry; exact P | cached_by_set | reflexivity].
Qed.

Lemma read_ok_intro2 {A} (rd : read A) (get : Histogram -> result A)
    (h h1 : Histogram) (r : result A) :
  rd h = (r, h1) -> get h = r -> (get h = r -> cached h h1) ->
  (rd h = (r, h1) -> rd h1 = (r, h1)) ->
  reads_ok rd get h.
Proof.
  intros R G C R1. apply (@read_ok_intro _ rd get h h1 r); auto.
Qed.

Ltac rewrite_known :=
  repeat (progress (repeat match goal with
                           | H : _ = _ |- _ => progress (rewrite H)
                           end; cbv beta iota; cbn [bind])).

Ltac cbn_slots :=
  cbn [data specs hist_type motion_type data_type bin_boundaries
       _bin_midpoints _counts _num_samples _mean_per_video _std_per_video
       _pdf _p_normal set_bin_midpoints set_counts set_num_samples
       set_mean_per_video set_std_per_video set_pdf set_p_normal].

Ltac read_leaf_again unfold_read unfold_get unfold_again :=
  eapply read_ok_intro2;
  [ unfold_read; rewrite_known; reflexivity
  | unfold_get; rewrite_known; reflexivity
  | intros ?; first [apply cached_from_refl | cached_by_set]
  | intros R'; first [exact R' | reflexivity
                     | unfold_again; cbn_slots; rewrite_known; reflexivity] ].

Ltac read_leaf unfold_read unfold_get :=
  read_leaf_again unfold_read unfold_get unfold_read.

Lemma read_std_per_video_ok (h : Histogram) :
  reads_ok (read_std_per_video np_sqrt) (std_per_video np_sqrt) h.
Proof.
  destruct (_std_per_video h) as [v|] eqn:ES.
  { read_leaf ltac:(unfold read_std_per_video, bind_read)
              ltac:(unfold std_per_video). }
  destruct (data h) as [d|] eqn:ED.
  2:{ assert (EL : py_len (data h) = Raise TypeError)
        by (rewrite ED; reflexivity).
      clear ED.
      read_leaf ltac:(unfold read_std_per_video, bind_read)
                ltac:(unfold std_per_video; cbn [bind]). }
  destruct (Z.eqb (Z.of_nat (length d)) 1) eqn:E1.
  { read_leaf ltac:(unfold read_std_per_video, bind_read, py_len)
              ltac:(unfold std_per_video, py_len; cbn [bind]). }
  destruct (read_mean_per_video_cases h)
    as [(e & R & S & G) | [(v & R & S & G) | (v & R & S & G)]].
  - read_leaf ltac:(unfold read_std_per_video, bind_read, py_len)
              ltac:(unfold std_per_video, py_len; cbn [bind]).
  - destruct v as [[m|]|xs]; [|destruct d|];
      read_leaf ltac:(unfold read_std_per_video, bind_read, py_len)
                ltac:(unfold std_per_video, py_len; cbn [bind]).
  - destruct v as [[m|]|xs];
      [| destruct d
       | exfalso; exact (@computed_mean_is_scalar _ _ S G)];
      read_leaf ltac:(unfold read_std_per_video, bind_read, py_len)
                ltac:(unfold std_per_video, py_len; cbn [bind]).
Qed.

Lemma read_num_valid_measurements_ok (h : Histogram) :
  reads_ok read_num_valid_measurements num_valid_measurements h.
Proof.
  destruct (read_mean_per_video_cases h)
    as [(e & R & S & G) | [(v & R & S & G) | (v & R & S & G)]].
  - read_leaf ltac:(unfold read_num_valid_measurements, bind_read)
              ltac:(unfold num_valid_measurements).
  - destruct v as [s|xs];
      read_leaf ltac:(unfold read_num_valid_measurements, bind_read)
                ltac:(unfold num_valid_measurements).
  - destruct v as [s|xs];
      [| exfalso; exact (@computed_mean_is_scalar _ _ S G)].
    read_leaf ltac:(unfold read_num_valid_measurements, bind_read)
              ltac:(unfold num_valid_measurements).
Qed.

Lemma read_p_normal_ok (h : Histogram) :
  reads_ok (read_p_normal shapiro) (p_normal shapiro) h.
Proof.
  destruct (_p_normal h) as [v|] eqn:EP.
  { read_leaf ltac:(unfold read_p_normal, bind_read)
              ltac:(unfold p_normal). }
  destruct (read_mean_per_video_cases h)
    as [(e & R & S & G) | [(v & R & S & G) | (v & R & S & G)]].
  - read_leaf
      ltac:(unfold read_p_normal, read_num_valid_measurements, bind_read)
      ltac:(unfold p_normal, num_valid_measurements).
  - destruct v as [s|xs].
    + read_leaf
        ltac:(unfold read_p_normal, read_num_valid_measurements, bind_read)
        ltac:(unfold p_normal, num_valid_measurements).
    + destruct (Z.ltb (Z.of_nat
                  (length (filter (fun x => negb (np_isnan x)) xs))) 3)
        eqn:E3;
      read_leaf
        ltac:(unfold read_p_normal, read_num_valid_measurements, bind_read,
                raise_read)
        ltac:(unfold p_normal, num_valid_measurements).
  - destruct v as [s|xs];
      [| exfalso; exact (@computed_mean_is_scalar _ _ S G)].
    read_leaf_again
      ltac:(unfold read_p_normal, read_num_valid_measurements, bind_read)
      ltac:(unfold p_normal, num_valid_measurements)
      ltac:(unfold read_p_normal, read_num_valid_measurements, bind_read,
              read_mean_per_video, raise_read).
Qed.

(** Every lazy property, by name. *)
Lemma read_property_ok (p : lazy_property) (h : Histogram) :
  fst (read_property np_sqrt shapiro p h) = value_of np_sqrt shapiro p h /\
  cached h (snd (read_property np_sqrt shapiro p h)) /\
  read_property np_sqrt shapiro p (snd (read_property np_sqrt shapiro p h))
  = read_property np_sqrt shapiro p h.
Proof.
  destruct p; unfold read_property, value_of.
  - destruct (read_num_samples_ok h) as (V & C & I).
    destruct (read_num_samples h) as [r h1] eqn:R. cbn [fst snd] in *.
    rewrite I, V. auto.
  - destruct (read_bin_midpoints_ok h) as (V & C & I).
    destruct (read_bin_midpoints h) as [r h1] eqn:R. cbn [fst snd] in *.
    rewrite I, V. auto.
  - destruct (read_counts_ok h) as (V & C & I).
    destruct (read_counts h) as [r h1] eqn:R. cbn [fst snd] in *.
    rewrite I, V. auto.
  - destruct (read_pdf_ok h) as (V & C & I).
    destruct (read_pdf h) as [r h1] eqn:R. cbn [fst snd] in *.
    rewrite I, V. auto.
  - destruct (read_mean_per_video_ok h) as (V & C & I).
    destruct (read_mean_per_video h) as [r h1] eqn:R. cbn [fst snd] in *.
    rewrite I, V. auto.
  - destruct (read_std_per_video_ok h) as (V & C & I).
    destruct (read_std_per_video np_sqrt h) as [r h1] eqn:R.
    cbn [fst snd] in *. rewrite I, V. auto.
  - destruct (read_num_valid_measurements_ok h) as (V & C & I).
    destruct (read_num_valid_measurements h) as [r h1] eqn:R.
    cbn [fst snd] in *. rewrite I, V. auto.
  - destruct (read_p_normal_ok h) as (V & C & I).
    destruct (read_p_normal shapiro h) as [r h1] eqn:R.
    cbn [fst snd] in *. rewrite I, V. auto.
Qed.

Lemma after_reads_cached (ps : list lazy_property) (h : Histogram) :
  cached h (after_reads np_sqrt shapiro ps h).
Proof.
  revert h. induction ps as [|p ps IH]; intros h.
  - apply cached_from_refl.
  - unfold after_reads. cbn [fold_left].
    destruct (read_property_ok p h) as (_ & C & _).
    eapply cached_from_trans; [exact C|]. apply IH.
Qed.

End LazyReadFacts.

Lemma mapM_agree {A B} (R : A -> A -> Prop) (f : A -> result B)
    (xs xs' : list A) :
  Forall2 R xs xs' -> (forall a a', R a a' -> f a' = f a) ->
  mapM f xs' = mapM f xs.
Proof.
  intros F HR. induction F as [|a a' xs xs' Ra F IH]; [reflexivity|].
  cbn [mapM]. rewrite (HR _ _ Ra), IH. reflexivity.
Qed.

Lemma py_index_agree {A} (R : A -> A -> Prop) (xs xs' : list A) (i : nat) :
  Forall2 R xs xs' ->
  (exists a a', py_index xs i = Ok a /\ py_index xs' i = Ok a' /\ R a a') \/
  (py_index xs i = Raise IndexError /\ py_index xs' i = Raise IndexError).
Proof.
  intros F. revert i. induction F as [|a a' xs xs' Ra F IH]; intros i.
  - right. destruct i; split; reflexivity.
  - destruct i as [|i].
    + left. exists a, a'. repeat split. exact Ra.
    + unfold py_index in *. cbn [nth_error]. apply IH.
Qed.

Lemma fill_counts_agree (hs hs' : list Histogram) :
  Forall2 (fun h h' => counts h' = counts h) hs hs' ->
  forall idx s e nc,
    fill_counts idx s e hs' nc = fill_counts idx s e hs nc.
Proof.
  intros F idx s e nc. destruct idx as [|i idx]; [reflexivity|].
  cbn [fill_counts].
  destruct (py_index s i) as [cs|]; cbn [bind]; [|reflexivity].
  destruct (py_index e i) as [ce|]; cbn [bind]; [|reflexivity].
  destruct (py_index_agree i F) as [(a & a' & -> & -> & Ra) | (-> & ->)];
    cbn [bind]; [|reflexivity].
  rewrite Ra. reflexivity.
Qed.

Section LazyReadTheorems.

Variable MAX_NUMBER_BINS : Q.
Variable np_sqrt : Q -> Q.
Variable shapiro : list f64 -> f64.

(** X13.  Reading lazy properties changes no later answer: after any
    sequence of reads every lazy property returns what it would have
    returned on the untouched instance, and so do the properties derived
    from them; the data, the specs and the boundaries are as they were. *)
Theorem lazy_reads_change_no_answer
    (ps : list lazy_property) (h : Histogram) :
  let h' := after_reads np_sqrt shapiro ps h in
  (forall q, value_of np_sqrt shapiro q h' = value_of np_sqrt shapiro q h) /\
  data h' = data h /\ specs h' = specs h /\
  bin_boundaries h' = bin_boundaries h /\
  num_bins h' = num_bins h /\
  first_bin_midpoint h' = first_bin_midpoint h /\
  last_bin_midpoint h' = last_bin_midpoint h /\
  num_videos h' = num_videos h /\
  no_valid_means h' = no_valid_means h.
Proof.
  intros h'. pose proof (after_reads_cached np_sqrt shapiro ps h) as C.
  fold h' in C.
  pose proof (agree_bin_midpoints C) as B.
  pose proof (agree_mean_per_video C) as M.
  pose proof (agree_num_valid_measurements C) as N.
  split; [intros q; exact (agree_value_of C q)|].
  destruct C as (D & S & _ & _ & _ & BB & _).
  unfold num_bins, first_bin_midpoint, last_bin_midpoint, num_videos,
    no_valid_means.
  rewrite B, M, N. repeat split; assumption.
Qed.

(** X14.  A read of a lazy property returns the value of the property, and
    a second read of the same property returns the same value (or raises the
    same exception) and leaves the instance as the first read left it. *)
Theorem a_second_read_repeats_the_first
    (p : lazy_property) (h : Histogram) :
  fst (read_property np_sqrt shapiro p h) = value_of np_sqrt shapiro p h /\
  read_property np_sqrt shapiro p (snd (read_property np_sqrt shapiro p h))
  = read_property np_sqrt shapiro p h.
Proof.
  destruct (read_property_ok np_sqrt shapiro p h) as (V & _ & I).
  split; assumption.
Qed.

(** X15.  The merge does not depend on which lazy properties of its inputs
    were read before: merging histograms on which any reads were made gives
    the result (or the exception) of merging the untouched ones. *)
Theorem merge_ignores_earlier_reads
    (reads : list (list lazy_property * Histogram)) :
  merged_histogram_factory MAX_NUMBER_BINS np_sqrt
    (map (fun r => after_reads np_sqrt shapiro (fst r) (snd r)) reads)
  = merged_histogram_factory MAX_NUMBER_BINS np_sqrt (map snd reads).
Proof.
  set (hs := map snd reads).
  set (hs' := map (fun r => after_reads np_sqrt shapiro (fst r) (snd r))
                reads).
  assert (F : Forall2 (cached_from np_sqrt shapiro) hs hs').
  { subst hs hs'. induction reads as [|[ps h] reads IH]; cbn [map fst snd].
    - constructor.
    - constructor; [apply after_reads_cached | exact IH]. }
  clearbody hs hs'.
  assert (L : length hs' = length hs)
    by (symmetry; exact (Forall2_length F)).
  assert (NB : mapM num_bins hs' = mapM num_bins hs).
  { apply (mapM_agree _ F). intros a a' C. unfold num_bins.
    now rewrite (agree_bin_midpoints C). }
  assert (FB : mapM first_bin_midpoint hs' = mapM first_bin_midpoint hs).
  { apply (mapM_agree _ F). intros a a' C. unfold first_bin_midpoint.
    now rewrite (agree_bin_midpoints C). }
  assert (LB : mapM last_bin_midpoint hs' = mapM last_bin_midpoint hs).
  { apply (mapM_agree _ F). intros a a' C. unfold last_bin_midpoint.
    now rewrite (agree_bin_midpoints C). }
  assert (NS : np_array_of num_samples hs' = np_array_of num_samples hs).
  { unfold np_array_of. f_equal. apply (mapM_agree _ F). intros a a' C.
    now rewrite (agree_num_samples C). }
  assert (MS : np_array_of mean_per_video hs'
               = np_array_of mean_per_video hs).
  { unfold np_array_of. f_equal. apply (mapM_agree _ F). intros a a' C.
    now rewrite (agree_mean_per_video C). }
  assert (SS : np_array_of (std_per_video np_sqrt) hs'
               = np_array_of (std_per_video np_sqrt) hs).
  { unfold np_array_of. f_equal. apply (mapM_agree _ F). intros a a' C.
    now rewrite (agree_std_per_video C). }
  assert (FC : forall idx s e nc,
             fill_counts idx s e hs' nc = fill_counts idx s e hs nc).
  { apply fill_counts_agree.
    eapply Forall2_impl; [|exact F]. intros a a' C.
    exact (agree_counts C). }
  unfold merged_histogram_factory.
  destruct (py_index_agree 0 F) as [(a & a' & -> & -> & C) | (-> & ->)];
    cbn [bind]; [|reflexivity].
  destruct C as (_ & -> & -> & -> & -> & _).
  rewrite NB, FB, LB, NS, MS, SS, L. clear NB FB LB NS MS SS L F.
  destruct (__init__ _ _ _ _ _ _) as [mh|]; cbn [bind]; [|reflexivity].
  destruct (mapM num_bins hs); cbn [bind]; [|reflexivity].
  destruct (mapM first_bin_midpoint hs); cbn [bind]; [|reflexivity].
  destruct (py_min _); cbn [bind]; [|reflexivity].
  destruct (mapM last_bin_midpoint hs); cbn [bind]; [|reflexivity].
  destruct (py_max _); cbn [bind]; [|reflexivity].
  destruct (np_arange _ _ _); cbn [bind]; [|reflexivity].
  destruct (mapM _ _); cbn [bind]; [|reflexivity].
  rewrite FC. reflexivity.
Qed.

End LazyReadTheorems.




(* ================================================================== *)
(** ** An instance without data *)

Section WithoutData.

Variable MAX_NUMBER_BINS : Q.
Variable np_sqrt : Q -> Q.
Variable shapiro : list f64 -> f64.

(** X20.  The constructor skips the binning for [data=None] and returns an
    instance on which nothing can be computed: the properties that need the
    boundaries raise [AttributeError], those that need the data raise
    [TypeError], no read caches anything, and [num_videos], which catches
    the [TypeError], answers 1.  For an empty array the constructor itself
    raises [ValueError]. *)
Theorem instance_without_data_is_unusable
    (sp : Specs) (ht mt dt : string) :
  __init__ MAX_NUMBER_BINS (Some []) sp ht mt dt = Raise ValueError /\
  exists h,
    __init__ MAX_NUMBER_BINS None sp ht mt dt = Ok h /\
    bin_boundaries h = None /\
    bin_midpoints h = Raise AttributeError /\
    num_bins h = Raise AttributeError /\
    first_bin_midpoint h = Raise AttributeError /\
    last_bin_midpoint h = Raise AttributeError /\
    counts h = Raise AttributeError /\
    pdf h = Raise AttributeError /\
    num_samples h = Raise TypeError /\
    mean_per_video h = Raise TypeError /\
    std_per_video np_sqrt h = Raise TypeError /\
    num_valid_measurements h = Raise TypeError /\
    all_means_valid h = Raise TypeError /\
    p_normal shapiro h = Raise TypeError /\
    num_videos h = Ok 1%Z /\
    forall ps, after_reads np_sqrt shapiro ps h = h.
Proof.
  split; [reflexivity|].
  eexists. split; [reflexivity|].
  repeat (split; [reflexivity|]).
  intros ps. induction ps as [|p ps IH]; [reflexivity|].
  unfold after_reads in *. cbn [fold_left].
  destruct p; exact IH.
Qed.

End WithoutData.

(* ================================================================== *)
(** ** Worked instances *)



(* ================================================================== *)
(** * Facts on binary64 *)

Section Binary64Facts.

Import Floats Binary64.
Local Open Scope float_scope.
Set Warnings "-inexact-float".

Ltac bind_ok H x E :=
  match type of H with
  | bind ?c _ = Ok _ =>
      destruct c as [x|] eqn:E; [cbn [bind] in H | discriminate H]
  end.

(** ** np.arange *)

Lemma arange_length_raise (start stop step : float) (e : exn) :
  arange_length start stop step = Raise e ->
  e = ValueError \/ e = OverflowError.
Proof.
  unfold arange_length.
  destruct (_ && _)%bool; [discriminate|].
  destruct (np_isnan _); [intro H; injection H as <-; now left|].
  destruct (float_to_Z _) as [n|];
    [|intro H; injection H as <-; now right].
  destruct (_ || _)%bool; [intro H; injection H as <-; now right|].
  discriminate.
Qed.

Lemma np_arange_ok (start stop step : float) (l : list float) :
  np_arange start stop step = Ok l ->
  exists n,
    arange_length start stop step = Ok n /\
    l = map (arange_item start step) (seq 0 (Z.to_nat n)).
Proof.
  unfold np_arange. destruct (arange_length _ _ _) as [n|]; [|discriminate].
  cbn [bind]. intro H. injection H as <-. exists n. split; reflexivity.
Qed.

Lemma np_arange_raise (start stop step : float) (e : exn) :
  np_arange start stop step = Raise e ->
  e = ValueError \/ e = OverflowError.
Proof.
  unfold np_arange.
  destruct (arange_length _ _ _) as [n|e'] eqn:E; [discriminate|].
  cbn [bind]. intro H. injection H as <-.
  exact (arange_length_raise _ _ _ E).
Qed.



Lemma py_first_nth {A} (l : list A) (x : A) :
  py_first l = Ok x -> nth_error l 0 = Some x.
Proof. destruct l; [discriminate|]. intro H. injection H as <-. reflexivity. Qed.

(** ** The constructor *)

(** What a returned instance tells about the run that built it. *)
Lemma init_inv (MAX_NUMBER_BINS : float) (d : ndarray) (sp : Specs)
    (ht mt dt : string) (h : Histogram) :
  __init__ MAX_NUMBER_BINS (Some d) sp ht mt dt = Ok h ->
  exists mn mx bb b0 bl,
    py_min (np_ravel d) = Ok mn /\ py_max (np_ravel d) = Ok mx /\
    (MAX_NUMBER_BINS <? checked_num_bins mn mx (bin_width sp)) = false /\
    np_arange (min_boundary mn (bin_width sp))
      (max_boundary mn mx (bin_width sp) + bin_width sp) (bin_width sp)
    = Ok bb /\
    py_first bb = Ok b0 /\ py_last bb = Ok bl /\
    (b0 - bin_width sp <=? mn) = true /\
    (mx <=? bl + bin_width sp) = true /\
    h = per_video d sp ht mt dt bb.
Proof.
  intro H. unfold __init__, compute_covering_bins in H.
  cbn [data specs bind] in H.
  bind_ok H mn Emn. bind_ok H mx Emx.
  fold (checked_num_bins mn mx (bin_width sp)) in H.
  destruct (MAX_NUMBER_BINS <? checked_num_bins mn mx (bin_width sp))
    eqn:Elim; [discriminate|].
  bind_ok H bb Ebb. bind_ok H b0 Eb0.
  destruct (b0 - bin_width sp <=? mn) eqn:A1; [|discriminate].
  cbn [negb] in H. bind_ok H bl Ebl.
  destruct (mx <=? bl + bin_width sp) eqn:A2; [|discriminate].
  cbn [negb] in H. injection H as <-.
  exists mn, mx, bb, b0, bl. repeat split; assumption.
Qed.

(** C3.  After the construction of a per-video histogram the smallest
    sample is not below the first boundary minus one bin width, and the
    largest sample is not above the last boundary plus one bin width, as
    float64 compares them: these are the two assertions that end
    [compute_covering_bins]. *)
Theorem covering_bins_cover_data
    (MAX_NUMBER_BINS : float) (d : ndarray) (sp : Specs)
    (ht mt dt : string) (h : Histogram) :
  __init__ MAX_NUMBER_BINS (Some d) sp ht mt dt = Ok h ->
  exists bb mn mx b0 bl,
    bin_boundaries h = Some bb /\
    py_min (np_ravel d) = Ok mn /\ py_max (np_ravel d) = Ok mx /\
    py_first bb = Ok b0 /\ py_last bb = Ok bl /\
    (b0 - bin_width sp <=? mn) = true /\
    (mx <=? bl + bin_width sp) = true.
Proof.
  intro H.
  destruct (init_inv _ _ _ _ _ _ H)
    as (mn & mx & bb & b0 & bl & Emn & Emx & _ & _ & E0 & El & A1 & A2 & ->).
  exists bb, mn, mx, b0, bl. repeat split; assumption.
Qed.

(** C6.  With data that has a minimum and a maximum, the constructor raises
    the bin-count exception exactly when the bin count it checks,
    [(max_boundary - min_boundary) / bin_width] in float64, exceeds
    [MAX_NUMBER_BINS]; an instance it returns passed the check and holds
    the boundaries [np.arange] gave for the whole range, cut nowhere. *)
Theorem bin_count_limit
    (MAX_NUMBER_BINS : float) (d : ndarray) (sp : Specs)
    (ht mt dt : string) (mn mx : float) :
  py_min (np_ravel d) = Ok mn ->
  py_max (np_ravel d) = Ok mx ->
  (__init__ MAX_NUMBER_BINS (Some d) sp ht mt dt = Raise BinCountExceeded
   <-> (MAX_NUMBER_BINS <? checked_num_bins mn mx (bin_width sp)) = true) /\
  (forall h,
     __init__ MAX_NUMBER_BINS (Some d) sp ht mt dt = Ok h ->
     (MAX_NUMBER_BINS <? checked_num_bins mn mx (bin_width sp)) = false /\
     exists bb,
       np_arange (min_boundary mn (bin_width sp))
         (max_boundary mn mx (bin_width sp) + bin_width sp) (bin_width sp)
       = Ok bb /\
       bin_boundaries h = Some bb).
Proof.
  intros Emn Emx. split.
  - unfold __init__, compute_covering_bins. cbn [data specs bind].
    rewrite Emn. cbn [bind]. rewrite Emx. cbn [bind].
    fold (checked_num_bins mn mx (bin_width sp)).
    destruct (MAX_NUMBER_BINS <? checked_num_bins mn mx (bin_width sp));
      [split; reflexivity|].
    split; [|discriminate]. intro H. exfalso.
    destruct (np_arange _ _ _) as [bb|e] eqn:Ebb; cbn [bind] in H.
    + unfold py_first, py_last in H.
      destruct bb as [|b0 bb]; cbn [bind] in H; [discriminate|].
      destruct (negb _); [discriminate|].
      destruct (rev (b0 :: bb)) as [|bl r]; cbn [bind] in H; [discriminate|].
      destruct (negb _); discriminate.
    + assert (e = BinCountExceeded) as -> by congruence.
      destruct (np_arange_raise _ _ _ Ebb); discriminate.
  - intros h H.
    destruct (init_inv _ _ _ _ _ _ H)
      as (mn' & mx' & bb & b0 & bl & Emn' & Emx' & Elim & Ebb & _ & _ & _
          & _ & ->).
    rewrite Emn in Emn'. injection Emn' as <-.
    rewrite Emx in Emx'. injection Emx' as <-.
    split; [exact Elim|]. exists bb. split; [exact Ebb | reflexivity].
Qed.


(** C7 (amended).  [create_histogram] returns [None], without raising,
    exactly when the data is [None], is not an [np.ndarray], or has no
    element.  For a float64 array with elements it runs the constructor:
    it returns the instance the constructor returns and raises what the
    constructor raises. *)
Theorem create_histogram_cases
    (MAX_NUMBER_BINS : float) (sp : Specs) (ht mt dt : string) :
  (forall data,
     create_histogram MAX_NUMBER_BINS data sp ht mt dt = Ok None <->
     data = PyNone \/ data = PyOther \/
     (exists a, data = NdArray a /\ ndarray_size a = 0%nat) \/
     data = NdArrayOther 0) /\
  (forall a, ndarray_size a <> 0%nat ->
     (forall h,
        create_histogram MAX_NUMBER_BINS (NdArray a) sp ht mt dt
        = Ok (Some h) <->
        __init__ MAX_NUMBER_BINS (Some a) sp ht mt dt = Ok h) /\
     (forall e,
        create_histogram MAX_NUMBER_BINS (NdArray a) sp ht mt dt = Raise e <->
        __init__ MAX_NUMBER_BINS (Some a) sp ht mt dt = Raise e)).
Proof.
  split.
  - intros [| |a|n]; cbn [create_histogram].
    + split; [now left | reflexivity].
    + split; [now right; left | reflexivity].
    + destruct (Nat.eqb_spec (ndarray_size a) 0) as [E|E].
      * split; [|reflexivity]. intros _. right. right. left.
        exists a. split; [reflexivity | exact E].
      * split.
        -- destruct (__init__ _ _ _ _ _ _); discriminate.
        -- intros [H|[H|[(a' & H & Hs)|H]]]; try discriminate.
           injection H as <-. contradiction.
    + destruct n as [|n]; cbn [Nat.eqb].
      * split; [|reflexivity]. intros _. now right; right; right.
      * split; [discriminate|].
        intros [H|[H|[(a' & H & _)|H]]]; discriminate.
  - intros a Ha. cbn [create_histogram].
    destruct (Nat.eqb_spec (ndarray_size a) 0) as [E|_]; [contradiction|].
    destruct (__init__ _ _ _ _ _ _) as [h'|e']; cbn [bind].
    + split.
      * intro h. split; intro H; injection H as <-; reflexivity.
      * intro e. split; discriminate.
    + split.
      * intro h. split; discriminate.
      * intro e. split; intro H; injection H as <-; reflexivity.
Qed.

(** C9.  A per-video histogram built from raw data has a scalar
    [mean_per_video], whatever the shape of the data, and on it
    [num_valid_measurements] and [p_normal] raise [TypeError].  Both return
    a value only on an instance whose [mean_per_video] is an array (or, for
    [p_normal], whose value is cached): there [num_valid_measurements]
    counts the entries that are not NaN, and [p_normal] is the Shapiro-Wilk
    p-value when at least three are valid and what reading [np.NaN] gives
    otherwise. *)
Theorem scalar_mean_breaks_validity_statistics
    (MAX_NUMBER_BINS : float) (np_mean shapiro : list float -> float)
    (np_NaN : result float)
    (d : ndarray) (sp : Specs) (ht mt dt : string) (h : Histogram) :
  __init__ MAX_NUMBER_BINS (Some d) sp ht mt dt = Ok h ->
  (exists x, mean_per_video np_mean h = Ok (Scalar x)) /\
  num_valid_measurements np_mean h = Raise TypeError /\
  p_normal np_mean shapiro np_NaN h = Raise TypeError /\
  (forall g n,
     num_valid_measurements np_mean g = Ok n ->
     exists xs, mean_per_video np_mean g = Ok (Array xs)) /\
  (forall g p,
     _p_normal g = None -> p_normal np_mean shapiro np_NaN g = Ok p ->
     exists xs, mean_per_video np_mean g = Ok (Array xs)) /\
  (forall g xs,
     mean_per_video np_mean g = Ok (Array xs) ->
     let n := Z.of_nat (length (filter (fun x => negb (np_isnan x)) xs)) in
     num_valid_measurements np_mean g = Ok n /\
     (_p_normal g = None ->
      p_normal np_mean shapiro np_NaN g
      = if (n <? 3)%Z then np_NaN else Ok (shapiro xs))).
Proof.
  intro H.
  destruct (init_inv _ _ _ _ _ _ H)
    as (mn & mx & bb & b0 & bl & _ & _ & _ & _ & _ & _ & _ & _ & ->).
  assert (M : mean_per_video np_mean (per_video d sp ht mt dt bb)
              = Ok (Scalar (np_mean (np_ravel d)))) by reflexivity.
  split; [eexists; exact M|].
  assert (N : num_valid_measurements np_mean (per_video d sp ht mt dt bb)
              = Raise TypeError).
  { unfold num_valid_measurements. rewrite M. reflexivity. }
  split; [exact N|].
  split.
  { unfold p_normal. cbn [_p_normal per_video]. rewrite N. reflexivity. }
  assert (Only : forall g n, num_valid_measurements np_mean g = Ok n ->
                   exists xs, mean_per_video np_mean g = Ok (Array xs)).
  { intros g n Hn. unfold num_valid_measurements in Hn.
    destruct (mean_per_video np_mean g) as [[x|xs]|]; try discriminate.
    exists xs. reflexivity. }
  split; [exact Only|].
  split.
  { intros g p Hc Hp. unfold p_normal in Hp. rewrite Hc in Hp.
    destruct (num_valid_measurements np_mean g) as [n|] eqn:En;
      [|discriminate].
    exact (Only g n En). }
  intros g xs Hm n.
  assert (En : num_valid_measurements np_mean g = Ok n).
  { unfold num_valid_measurements. rewrite Hm. reflexivity. }
  split; [exact En|].
  intro Hc. unfold p_normal. rewrite Hc, En. cbn [bind].
  destruct (n <? 3)%Z; [reflexivity|]. rewrite Hm. reflexivity.
Qed.


(** ** The merge and its slice *)

Lemma fill_counts_ok (idx : list nat) (starts ends : list float)
    (hs : list Histogram) (rows rows' : list (list float)) :
  fill_counts idx starts ends hs rows = Ok rows' ->
  rows' = rows /\
  Forall (fun i => exists s, nth_error starts i = Some s /\
                             np_isnan s = true) idx.
Proof.
  induction idx as [|i idx IH]; cbn [fill_counts]; intro H.
  - injection H as <-. split; [reflexivity | constructor].
  - unfold py_index in H at 1.
    destruct (nth_error starts i) as [s|] eqn:Es; [|discriminate].
    cbn [bind] in H. destruct (np_isnan s) eqn:En.
    + destruct (IH H) as [-> F]. split; [reflexivity|].
      constructor; [exists s; split; [exact Es | exact En] | exact F].
    + exfalso.
      destruct (py_index ends i); cbn [bind] in H; [|discriminate].
      destruct (py_index hs i); cbn [bind] in H; [|discriminate].
      destruct (counts _); discriminate.
Qed.

Lemma mapM_length {A B} (f : A -> result B) (xs : list A) (ys : list B) :
  mapM f xs = Ok ys -> length ys = length xs.
Proof.
  revert ys. induction xs as [|x xs IH]; intros ys H; cbn [mapM] in H.
  - injection H as <-. reflexivity.
  - destruct (f x); [|discriminate]. cbn [bind] in H.
    destruct (mapM f xs) as [ys'|]; [|discriminate]. cbn [bind] in H.
    injection H as <-. cbn [length]. f_equal. now apply IH.
Qed.

Lemma merge_ok_inv
    (MAX_NUMBER_BINS : float) (np_mean : list float -> float)
    (hs : list Histogram) (m : Histogram) :
  merged_histogram_factory MAX_NUMBER_BINS np_mean hs = Ok m ->
  exists h0 firsts mn mx mids,
    nth_error hs 0 = Some h0 /\
    mapM first_bin_midpoint hs = Ok firsts /\
    py_min firsts = Ok mn /\
    np_arange mn (mx + bin_width (specs h0)) (bin_width (specs h0))
    = Ok mids /\
    Forall (fun s => np_isnan s = true)
      (start_indices_of firsts mn (bin_width (specs h0))).
Proof.
  intro H. unfold merged_histogram_factory in H.
  unfold py_index in H at 1.
  destruct (nth_error hs 0) as [h0|] eqn:E0; [|discriminate].
  cbn [bind __init__ specs] in H.
  bind_ok H nb Enb. bind_ok H firsts Efirsts. bind_ok H mn Emn.
  bind_ok H lasts Elasts. bind_ok H mx Emx. bind_ok H mids Emids.
  bind_ok H rows Erows.
  destruct (fill_counts_ok _ _ _ _ _ Erows) as [_ F].
  exists h0, firsts, mn, mx, mids.
  split; [reflexivity|]. split; [reflexivity|]. split; [exact Emn|].
  split; [exact Emids|].
  assert (L : length (start_indices_of firsts mn (bin_width (specs h0)))
              = length hs).
  { unfold start_indices_of. rewrite length_map.
    exact (mapM_length _ _ Efirsts). }
  rewrite Forall_forall in F.
  apply Forall_forall. intros s Hs.
  apply In_nth_error in Hs. destruct Hs as (i & Hi).
  assert (Hlt : (i < length hs)%nat).
  { rewrite <- L. apply nth_error_Some. congruence. }
  destruct (F i) as (s' & Hs' & Hn).
  { apply in_seq. lia. }
  rewrite Hi in Hs'. injection Hs' as <-. exact Hn.
Qed.

(** X21.  The merge cannot place a histogram: when the start index of some
    input is a number, the merge raises.  It gets past its loop only when
    every start index is NaN and every round is skipped. *)
Theorem merge_raises_when_it_places_a_histogram
    (MAX_NUMBER_BINS : float) (np_mean : list float -> float)
    (hs : list Histogram) (h0 : Histogram) (firsts : list float)
    (mn : float) :
  nth_error hs 0 = Some h0 ->
  mapM first_bin_midpoint hs = Ok firsts ->
  py_min firsts = Ok mn ->
  Exists (fun s => np_isnan s = false)
    (start_indices_of firsts mn (bin_width (specs h0))) ->
  exists e, merged_histogram_factory MAX_NUMBER_BINS np_mean hs = Raise e.
Proof.
  intros E0 Ef Emn Hex.
  destruct (merged_histogram_factory MAX_NUMBER_BINS np_mean hs)
    as [m|e] eqn:Hm; [|exists e; reflexivity].
  exfalso.
  destruct (merge_ok_inv _ _ _ Hm)
    as (h0' & firsts' & mn' & mx & mids & E0' & Ef' & Emn' & _ & F).
  rewrite E0 in E0'. injection E0' as <-.
  rewrite Ef in Ef'. injection Ef' as <-.
  rewrite Emn in Emn'. injection Emn' as <-.
  apply Exists_exists in Hex. destruct Hex as (s & Hin & Hs).
  rewrite Forall_forall in F. rewrite (F s Hin) in Hs. discriminate.
Qed.

(** *** No input is merged *)

Lemma py_min_In (xs : list float) (mn : float) :
  py_min xs = Ok mn -> In mn xs.
Proof.
  destruct xs as [|x rest]; [discriminate|].
  cbn [py_min]. intro H. injection H as <-.
  assert (G : forall l a, fold_left (fun m y => if y <? m then y else m) l a
                          = a \/
                          In (fold_left (fun m y => if y <? m then y else m)
                                l a) l).
  { induction l as [|y l IH]; intro a; cbn [fold_left]; [now left|].
    destruct (IH (if y <? a then y else a)) as [E|I].
    - rewrite E. destruct (y <? a); [right; now left | now left].
    - right. now right. }
  destruct (G rest x) as [E|I]; [rewrite E; now left | now right].
Qed.

(** A quotient that is a number comes from a dividend that is a number and
    a divisor that is a number other than zero, or infinite. *)
Lemma div_is_a_number (d step : float) :
  match Prim2SF (d / step) with
  | S754_nan | S754_infinity _ => False
  | _ => True
  end ->
  match Prim2SF d with S754_nan | S754_infinity _ => False | _ => True end /\
  match Prim2SF step with S754_nan | S754_zero _ => False | _ => True end.
Proof.
  rewrite div_spec. unfold SF64div, SFdiv.
  destruct (Prim2SF d), (Prim2SF step); cbn; tauto.
Qed.

Lemma sub_is_a_number (stop start : float) :
  match Prim2SF (stop - start) with
  | S754_nan | S754_infinity _ => False
  | _ => True
  end ->
  match Prim2SF start with S754_nan | S754_infinity _ => False | _ => True end.
Proof.
  rewrite sub_spec. unfold SF64sub, SFsub.
  destruct (Prim2SF stop) as [[]|[]| |],
           (Prim2SF start) as [[]|[]| |]; cbn; tauto.
Qed.

Lemma arange_length_is_a_number (start stop step : float) (n : Z) :
  arange_length start stop step = Ok n ->
  match Prim2SF ((stop - start) / step) with
  | S754_nan | S754_infinity _ => False
  | _ => True
  end.
Proof.
  unfold arange_length. set (t := (stop - start) / step).
  destruct (Prim2SF t) as [s|s| |s m e] eqn:Et; trivial; intro H; exfalso.
  - assert (Z0 : (t =? 0) = false).
    { rewrite eqb_spec, Et. destruct s; reflexivity. }
    rewrite Z0 in H. cbn [andb] in H.
    assert (C : np_ceil t = t) by (unfold np_ceil; now rewrite Et).
    rewrite C in H.
    assert (N : np_isnan t = false).
    { unfold np_isnan, is_nan. rewrite eqb_spec, Et. destruct s; reflexivity. }
    rewrite N in H. unfold float_to_Z in H. rewrite Et in H. discriminate.
  - assert (Z0 : (t =? 0) = false) by (rewrite eqb_spec, Et; reflexivity).
    rewrite Z0 in H. cbn [andb] in H.
    assert (C : np_ceil t = t) by (unfold np_ceil; now rewrite Et).
    rewrite C in H.
    assert (N : np_isnan t = true).
    { unfold np_isnan, is_nan. rewrite eqb_spec, Et. reflexivity. }
    rewrite N in H. discriminate.
Qed.

(** The start index of the histogram with the smallest first midpoint is
    the rounded quotient [(mn - mn) / bin_width]: a zero, whenever
    [np.arange] could number the merged midpoints. *)
Lemma own_start_index_is_zero (mn bw : float) :
  match Prim2SF mn with S754_nan | S754_infinity _ => False | _ => True end ->
  match Prim2SF bw with S754_nan | S754_zero _ => False | _ => True end ->
  np_isnan (np_round ((mn - mn) / bw)) = false.
Proof.
  intros Hm Hb.
  assert (Z0 : exists s, Prim2SF ((mn - mn) / bw) = S754_zero s).
  { rewrite div_spec, sub_spec. unfold SF64div, SF64sub.
    destruct (Prim2SF mn) as [sm|sm| |sm m e]; try contradiction.
    - destruct (Prim2SF bw) as [sb|sb| |sb mb eb]; try contradiction;
        destruct sm; cbn; eauto.
    - unfold SFsub. cbv zeta. rewrite Z.sub_diag. cbn [binary_normalize].
      destruct (Prim2SF bw) as [sb|sb| |sb mb eb]; try contradiction;
        cbn; eauto. }
  destruct Z0 as (s & Es).
  assert (R : np_round ((mn - mn) / bw) = (mn - mn) / bw).
  { unfold np_round. now rewrite Es. }
  rewrite R. unfold np_isnan, is_nan. rewrite eqb_spec, Es. reflexivity.
Qed.

(** X25.  [merged_histogram_factory] returns for no list of histograms.
    Getting past the loop needs every start index to be NaN, that of the
    histogram with the smallest first midpoint included; this index is NaN
    only when that midpoint is not a number or the bin width is zero or
    NaN, and then [np.arange] has already raised. *)
Theorem merged_histogram_factory_never_returns
    (MAX_NUMBER_BINS : float) (np_mean : list float -> float)
    (hs : list Histogram) (m : Histogram) :
  merged_histogram_factory MAX_NUMBER_BINS np_mean hs <> Ok m.
Proof.
  intro H.
  destruct (merge_ok_inv _ _ _ H)
    as (h0 & firsts & mn & mx & mids & _ & _ & Emn & Ear & F).
  destruct (np_arange_ok _ _ _ Ear) as (n & En & _).
  apply arange_length_is_a_number in En.
  destruct (div_is_a_number _ _ En) as [Hd Hb].
  apply sub_is_a_number in Hd.
  pose proof (own_start_index_is_zero mn (bin_width (specs h0)) Hd Hb) as Z0.
  rewrite Forall_forall in F.
  rewrite (F (np_round ((mn - mn) / bin_width (specs h0)))) in Z0;
    [discriminate|].
  unfold start_indices_of.
  apply (in_map (fun f => np_round ((f - mn) / bin_width (specs h0)))).
  exact (py_min_In _ Emn).
Qed.

(** ** Counting *)

Lemma Zsum_acc (l : list Z) (a : Z) :
  fold_left Z.add l a = (a + Zsum l)%Z.
Proof.
  unfold Zsum. revert a. induction l as [|x l IH]; intro a; cbn [fold_left].
  - lia.
  - rewrite IH, (IH (0 + x)%Z). lia.
Qed.

Lemma Zsum_cons (x : Z) (l : list Z) : Zsum (x :: l) = (x + Zsum l)%Z.
Proof. unfold Zsum at 1. cbn [fold_left]. rewrite Zsum_acc. lia. Qed.

Lemma np_diff_length (l : list Z) : length (np_diff l) = pred (length l).
Proof.
  induction l as [|x [|y l] IH]; [reflexivity | reflexivity |].
  cbn [np_diff length] in *. now rewrite IH.
Qed.

Lemma last_cons_default {A} (l : list A) (z d d' : A) :
  last (z :: l) d = last (z :: l) d'.
Proof.
  revert z. induction l as [|y l IH]; intro z; [reflexivity|].
  change (last (z :: y :: l) d) with (last (y :: l) d).
  change (last (z :: y :: l) d') with (last (y :: l) d').
  apply IH.
Qed.

Lemma last_cons_shift {A} (l : list A) (x d : A) :
  last (x :: l) d = last l x.
Proof.
  destruct l as [|y l]; [reflexivity|].
  change (last (x :: y :: l) d) with (last (y :: l) d).
  apply last_cons_default.
Qed.

Lemma np_diff_sum (l : list Z) (x : Z) :
  Zsum (np_diff (x :: l)) = (last l x - x)%Z.
Proof.
  revert x. induction l as [|y l IH]; intro x.
  - cbn. lia.
  - change (np_diff (x :: y :: l)) with ((y - x)%Z :: np_diff (y :: l)).
    rewrite Zsum_cons, IH.
    rewrite (last_cons_shift l y x). lia.
Qed.

Lemma cum_counts_length (edges a : list float) :
  length (cum_counts edges a) = length edges.
Proof.
  induction edges as [|e [|e' edges] IH]; [reflexivity | reflexivity |].
  cbn [cum_counts length] in *. now rewrite IH.
Qed.

Lemma cum_counts_last (edges a : list float) (e : float) (d : Z) :
  last (cum_counts (e :: edges) a) d
  = count_if (sorts_not_after (last edges e)) a.
Proof.
  revert e. induction edges as [|e' edges IH]; intro e; [reflexivity|].
  change (cum_counts (e :: e' :: edges) a)
    with (count_if (sorts_before e) a :: cum_counts (e' :: edges) a).
  assert (N : cum_counts (e' :: edges) a <> []).
  { intro E. apply (f_equal (@length Z)) in E.
    rewrite cum_counts_length in E. discriminate. }
  destruct (cum_counts (e' :: edges) a) as [|c cs] eqn:Ec; [congruence|].
  change (last (count_if (sorts_before e) a :: c :: cs) d)
    with (last (c :: cs) d).
  rewrite <- Ec, IH, last_cons_shift. reflexivity.
Qed.

Lemma py_last_last {A} (l : list A) (x d : A) :
  py_last l = Ok x -> last l d = x.
Proof.
  intro H. destruct l as [|a l0]; [discriminate H|].
  destruct (@exists_last A (a :: l0)) as (l' & y & E); [discriminate|].
  rewrite E in *. unfold py_last in H. rewrite rev_unit in H.
  injection H as <-. apply last_last.
Qed.

(** X24.  The counts of a per-video histogram whose boundaries do not
    decrease are one fewer than the boundaries, and they add up to the
    number of samples that [np.histogram] finds not above the last boundary
    minus the number it finds below the first: the samples outside the
    boundaries, and NaN, are what [sum(counts)] misses of [len(data)]. *)
Theorem counts_total
    (h : Histogram) (d : ndarray) (bb : list float) (b0 bl : float) :
  _counts h = None ->
  data h = Some d ->
  bin_boundaries h = Some bb ->
  decreases bb = false ->
  (2 <= length bb)%nat ->
  py_first bb = Ok b0 ->
  py_last bb = Ok bl ->
  exists c,
    counts h = Ok (IntVec c) /\
    length bb = S (length c) /\
    Zsum c = (count_if (sorts_not_after bl) (np_ravel d)
              - count_if (sorts_before b0) (np_ravel d))%Z.
Proof.
  intros Hc Hd Hb Hdec Hlen H0 Hl.
  unfold counts. rewrite Hc, Hb, Hd. cbn [getattr bind].
  unfold np_histogram. rewrite Hdec. cbn [bind].
  eexists. split; [reflexivity|].
  destruct bb as [|e0 [|e1 bb']]; cbn [length] in Hlen; [lia | lia |].
  injection H0 as <-.
  split.
  - rewrite np_diff_length, cum_counts_length. reflexivity.
  - change (cum_counts (e0 :: e1 :: bb') (np_ravel d))
      with (count_if (sorts_before e0) (np_ravel d)
            :: cum_counts (e1 :: bb') (np_ravel d)).
    rewrite np_diff_sum.
    rewrite (cum_counts_last bb' (np_ravel d) e1).
    rewrite <- (py_last_last (e0 :: e1 :: bb') e0 Hl).
    rewrite (last_cons_shift (e1 :: bb') e0 e0), last_cons_shift.
    reflexivity.
Qed.

(** ** plot_versus *)

(** X18.  [plot_versus] returns [None] and records no call when the two
    histograms have different long fields.  With equal long fields, and
    midpoints and a pdf readable on both, it returns the axes with its calls
    after the earlier ones, among them one [set_xlim]: the left limit is
    the smaller of the two first midpoints and the right limit the smaller
    of the two last midpoints, as the builtin [min] picks them. *)
Theorem plot_versus_x_limits
    (ax : list ax_call) (e c : Histogram)
    (me pe mc pc : list float) (fe le fc lc : float) :
  long_field (specs e) = long_field (specs c) ->
  bin_midpoints e = Ok me -> pdf e = Ok (Some pe) ->
  bin_midpoints c = Ok mc -> pdf c = Ok (Some pc) ->
  py_first me = Ok fe -> py_last me = Ok le ->
  py_first mc = Ok fc -> py_last mc = Ok lc ->
  (forall ax' e' c',
     long_field (specs e') <> long_field (specs c') ->
     plot_versus ax' e' c' = Ok None) /\
  exists before after,
    plot_versus ax e c
    = Ok (Some (ax ++ before
                ++ set_xlim (if fe <? fc then fe else fc)
                     (if le <? lc then le else lc) :: after)) /\
    Forall (fun call => forall a b, call <> set_xlim a b) (before ++ after).
Proof.
  intros Hlf Eme Epe Emc Epc Efe Ele Efc Elc. split.
  { intros ax' e' c' Hd. unfold plot_versus.
    destruct (String.eqb_spec (long_field (specs e')) (long_field (specs c')))
      as [E|E]; [contradiction | reflexivity]. }
  do 2 eexists. split.
  - unfold plot_versus. rewrite Hlf, String.eqb_refl. cbn [negb].
    rewrite Emc, Epc, Eme, Epe. cbn [bind mapM].
    rewrite Efc, Efe, Elc, Ele. cbn [bind py_min fold_left].
    f_equal. f_equal. f_equal.
    change (?a :: ?b :: ?c0 :: ?d :: ?e0 :: set_xlim ?x ?y :: ?rest)
      with ([a; b; c0; d; e0] ++ set_xlim x y :: rest).
    reflexivity.
  - repeat constructor; intros a b; discriminate.
Qed.

(** ** Columns of samples *)

Lemma fold_vec_add_columns (xs : list float) (acc : float) :
  fold_left vec_add (map (fun x => [x]) xs) [acc] = [fold_left add xs acc].
Proof.
  revert acc. induction xs as [|x xs IH]; intro acc; [reflexivity|].
  cbn [map fold_left]. unfold vec_add at 2. cbn [combine map fst snd].
  apply IH.
Qed.

(** X22.  For samples that arrive as an [(n,1)] column, [num_samples] and
    [mean_per_video] are those of the flat array, but [std_per_video] is an
    array with one entry where the flat array gives a scalar; the entry is
    that scalar. *)
Theorem column_data_gives_a_one_element_std
    (np_mean : list float -> float) (xs : list float)
    (sp : Specs) (ht mt dt : string) (bb : list float) :
  length xs <> 1%nat ->
  xs <> [] ->
  let flat := per_video (Array1 xs) sp ht mt dt bb in
  let column := per_video (Array2 (map (fun x => [x]) xs)) sp ht mt dt bb in
  num_samples column = num_samples flat /\
  mean_per_video np_mean column = mean_per_video np_mean flat /\
  counts column = counts flat /\
  exists s,
    std_per_video np_mean flat = Ok (Scalar s) /\
    std_per_video np_mean column = Ok (Array [s]).
Proof.
  intros H1 Hne flat column. subst flat column.
  assert (R : concat (map (fun x : float => [x]) xs) = xs).
  { clear. induction xs as [|x xs IH]; [reflexivity|].
    cbn [map concat app]. now rewrite IH. }
  unfold num_samples, mean_per_video, counts, std_per_video, per_video.
  cbn [_num_samples _mean_per_video _counts _std_per_video data
       bin_boundaries py_len ndarray_len np_ravel bind getattr].
  rewrite length_map, R.
  split; [reflexivity|]. split; [reflexivity|]. split; [reflexivity|].
  destruct (Z.eqb_spec (Z.of_nat (length xs)) 1) as [E|_]; [lia|].
  eexists. split; [reflexivity|].
  unfold mean_per_video.
  cbn [_mean_per_video data np_ravel bind]. rewrite R, map_map.
  destruct xs as [|x xs']; [congruence|].
  cbn [map py_sum_rows].
  set (sq := fun x0 : float =>
               (x0 - np_mean (x :: xs')) * (x0 - np_mean (x :: xs'))).
  change (map (fun x0 : float => map sq [x0]) xs')
    with (map (fun x0 : float => [sq x0]) xs').
  rewrite <- (map_map sq (fun y : float => [y])).
  rewrite fold_vec_add_columns. reflexivity.
Qed.

(** X23.  With exactly one sample (one row), [std_per_video] is the
    integer 0, whatever the sample. *)
Theorem single_sample_std_is_zero
    (np_mean : list float -> float) (h : Histogram) (d : ndarray) :
  _std_per_video h = None ->
  data h = Some d ->
  ndarray_len d = 1%Z ->
  std_per_video np_mean h = Ok (Scalar 0).
Proof.
  intros Hc Hd Hl. unfold std_per_video. rewrite Hc, Hd.
  cbn [py_len bind]. rewrite Hl. reflexivity.
Qed.

(** * Worked instances *)



(** Rounding moves the boundaries off the grid: data [1.7] with bin width
    0.1 starts at [17 * 0.1], which is above 1.7, and its second boundary
    is not [18 * 0.1]. *)
Lemma covering_bins_drift_example :
  exists h,
    __init__ example_max_bins (Some (Array1 [1.7])) specs_01
      "motion" "all" "all" = Ok h /\
    bin_boundaries h
    = Some [1.7000000000000002; 1.8000000000000003; 1.9000000000000004] /\
    17 * 0.1 = 1.7000000000000002 /\
    18 * 0.1 = 1.8 /\ (1.8 <? 1.8000000000000003) = true /\
    19 * 0.1 = 1.9000000000000001 /\
    (1.8000000000000003 <? 1.9000000000000001) = true.
Proof.
  eexists. split; [vm_compute; reflexivity|].
  repeat split; vm_compute; reflexivity.
Qed.

Lemma covering_bins_cover_data_witness :
  __init__ example_max_bins (Some data_A) specs_1 "motion" "all" "all"
  = Ok hist_A /\
  exists bb mn mx b0 bl,
    bin_boundaries hist_A = Some bb /\
    py_min (np_ravel data_A) = Ok mn /\ py_max (np_ravel data_A) = Ok mx /\
    py_first bb = Ok b0 /\ py_last bb = Ok bl /\
    (b0 - bin_width specs_1 <=? mn) = true /\
    (mx <=? bl + bin_width specs_1) = true.
Proof.
  split; [vm_compute; reflexivity|].
  apply (covering_bins_cover_data example_max_bins data_A specs_1
           "motion" "all" "all").
  vm_compute; reflexivity.
Defined.

(** C4: data [1.7] with bin width 0.1.  The first boundary is above the
    only sample, which no bin counts. *)
Theorem covering_bins_lose_a_sample :
  exists h,
    __init__ example_max_bins (Some (Array1 [1.7])) specs_01
      "motion" "all" "all" = Ok h /\
    bin_boundaries h
    = Some [1.7000000000000002; 1.8000000000000003; 1.9000000000000004] /\
    (1.7 <? 1.7000000000000002) = true /\
    counts h = Ok (IntVec [0; 0]%Z) /\
    num_samples h = Ok (Scalar 1%Z) /\
    pdf h = Ok None.
Proof.
  eexists. split; [vm_compute; reflexivity|].
  repeat split; vm_compute; reflexivity.
Qed.

Lemma bin_count_limit_witness :
  let d := Array1 [0; 2000000] in
  py_min (np_ravel d) = Ok 0 /\
  py_max (np_ravel d) = Ok 2000000 /\
  (example_max_bins <? checked_num_bins 0 2000000 (bin_width specs_1))
  = true /\
  __init__ example_max_bins (Some d) specs_1 "motion" "all" "all"
  = Raise BinCountExceeded /\
  (__init__ example_max_bins (Some d) specs_1 "motion" "all" "all"
   = Raise BinCountExceeded
   <-> (example_max_bins
        <? checked_num_bins 0 2000000 (bin_width specs_1)) = true) /\
  (forall h,
     __init__ example_max_bins (Some d) specs_1 "motion" "all" "all"
     = Ok h ->
     (example_max_bins
      <? checked_num_bins 0 2000000 (bin_width specs_1)) = false /\
     exists bb,
       np_arange (min_boundary 0 (bin_width specs_1))
         (max_boundary 0 2000000 (bin_width specs_1) + bin_width specs_1)
         (bin_width specs_1)
       = Ok bb /\
       bin_boundaries h = Some bb).
Proof.
  cbv zeta. split; [reflexivity|]. split; [reflexivity|].
  split; [vm_compute; reflexivity|]. split; [vm_compute; reflexivity|].
  apply (bin_count_limit example_max_bins (Array1 [0; 2000000]) specs_1
           "motion" "all" "all"); reflexivity.
Defined.

(** The count that is checked is the float64 quotient: data [0.1, 0.4]
    with bin width 0.1 has three bins, but the quotient is
    3.0000000000000004 and a limit of 3 refuses it; with a limit of 4 the
    instance has the four boundaries of three bins. *)
Lemma bin_count_limit_at_the_threshold :
  checked_num_bins 0.1 0.4 0.1 = 3.0000000000000004 /\
  __init__ 3 (Some (Array1 [0.1; 0.4])) specs_01 "motion" "all" "all"
  = Raise BinCountExceeded /\
  exists h,
    __init__ 4 (Some (Array1 [0.1; 0.4])) specs_01 "motion" "all" "all"
    = Ok h /\
    bin_boundaries h
    = Some [0.1; 0.2; 0.30000000000000004; 0.4].
Proof.
  split; [vm_compute; reflexivity|]. split; [vm_compute; reflexivity|].
  eexists. split; vm_compute; reflexivity.
Qed.

(** C7: an array with elements for which the constructor raises. *)
Lemma create_histogram_raises_counterexample :
  ndarray_size (Array1 [0; 2000000]) <> 0%nat /\
  create_histogram example_max_bins (NdArray (Array1 [0; 2000000])) specs_1
    "motion" "all" "all" = Raise BinCountExceeded /\
  ndarray_size (Array1 [nan]) <> 0%nat /\
  create_histogram example_max_bins (NdArray (Array1 [nan])) specs_1
    "motion" "all" "all" = Raise ValueError.
Proof.
  split; [discriminate|]. split; [vm_compute; reflexivity|].
  split; [discriminate|]. vm_compute; reflexivity.
Qed.

(** C8: data [1e16] with bin width 1.  The snapped boundaries coincide, the
    added bin width is absorbed by the rounding, [np.arange] returns no
    boundary and [bin_boundaries[0]] raises. *)
Theorem degenerate_guard_is_absorbed :
  let mn := 1e16 in
  let bw := bin_width specs_1 in
  (np_floor (mn / bw) * bw =? np_ceil (mn / bw) * bw) = true /\
  np_floor (mn / bw) * bw + bw = np_floor (mn / bw) * bw /\
  np_arange (min_boundary mn bw) (max_boundary mn mn bw + bw) bw = Ok [] /\
  __init__ example_max_bins (Some (Array1 [mn])) specs_1
    "motion" "all" "all" = Raise IndexError.
Proof.
  cbv zeta. repeat split; vm_compute; reflexivity.
Qed.

(** C1: two constructed histograms.  The start indices are the float64
    values 0 and 1, and the first slice assignment raises. *)
Theorem merge_slices_with_float_bounds
    (MAX_NUMBER_BINS : float) (np_mean : list float -> float) :
  __init__ example_max_bins (Some data_A) specs_1 "motion" "all" "all"
  = Ok hist_A /\
  __init__ example_max_bins (Some data_C) specs_1 "motion" "all" "all"
  = Ok hist_C /\
  mapM first_bin_midpoint [hist_A; hist_C] = Ok [1.5; 2.5] /\
  start_indices_of [1.5; 2.5] 1.5 (bin_width specs_1) = [0; 1] /\
  merged_histogram_factory MAX_NUMBER_BINS np_mean [hist_A; hist_C]
  = Raise TypeError.
Proof.
  repeat split; vm_compute; reflexivity.
Qed.

(** C5: the histograms A and B of the specification. *)
Theorem merge_of_the_spec_example_raises
    (MAX_NUMBER_BINS : float) (np_mean : list float -> float) :
  bin_midpoints hist_A = Ok [1.5; 2.5; 3.5] /\
  counts hist_A = Ok (IntVec [2; 3; 1]%Z) /\
  bin_midpoints hist_B = Ok [2.5; 3.5; 4.5; 5.5] /\
  counts hist_B = Ok (IntVec [1; 4; 2; 0]%Z) /\
  merged_histogram_factory MAX_NUMBER_BINS np_mean [hist_A; hist_B]
  = Raise TypeError.
Proof.
  repeat split; vm_compute; reflexivity.
Qed.

Lemma scalar_mean_breaks_validity_statistics_witness :
  __init__ example_max_bins (Some data_A) specs_1 "motion" "all" "all"
  = Ok hist_A /\
  (exists x, mean_per_video example_mean hist_A = Ok (Scalar x)) /\
  num_valid_measurements example_mean hist_A = Raise TypeError /\
  p_normal example_mean example_shapiro example_np_NaN hist_A
  = Raise TypeError /\
  (forall g n,
     num_valid_measurements example_mean g = Ok n ->
     exists xs, mean_per_video example_mean g = Ok (Array xs)) /\
  (forall g p,
     _p_normal g = None ->
     p_normal example_mean example_shapiro example_np_NaN g = Ok p ->
     exists xs, mean_per_video example_mean g = Ok (Array xs)) /\
  (forall g xs,
     mean_per_video example_mean g = Ok (Array xs) ->
     let n := Z.of_nat (length (filter (fun x => negb (np_isnan x)) xs)) in
     num_valid_measurements example_mean g = Ok n /\
     (_p_normal g = None ->
      p_normal example_mean example_shapiro example_np_NaN g
      = if (n <? 3)%Z then example_np_NaN else Ok (example_shapiro xs))).
Proof.
  split; [vm_compute; reflexivity|].
  apply (scalar_mean_breaks_validity_statistics example_max_bins
           example_mean example_shapiro example_np_NaN data_A specs_1
           "motion" "all" "all").
  vm_compute; reflexivity.
Defined.

Lemma plot_versus_x_limits_witness :
  long_field (specs hist_A) = long_field (specs hist_C) /\
  bin_midpoints hist_A = Ok [1.5; 2.5; 3.5] /\
  pdf hist_A = Ok (Some [2 / 6; 3 / 6; 1 / 6]) /\
  bin_midpoints hist_C = Ok [2.5; 3.5; 4.5; 5.5] /\
  pdf hist_C = Ok (Some [1 / 8; 4 / 8; 2 / 8; 1 / 8]) /\
  py_first [1.5; 2.5; 3.5] = Ok 1.5 /\ py_last [1.5; 2.5; 3.5] = Ok 3.5 /\
  py_first [2.5; 3.5; 4.5; 5.5] = Ok 2.5 /\
  py_last [2.5; 3.5; 4.5; 5.5] = Ok 5.5 /\
  (forall ax' e' c',
     long_field (specs e') <> long_field (specs c') ->
     plot_versus ax' e' c' = Ok None) /\
  exists before after,
    plot_versus [] hist_A hist_C
    = Ok (Some ([] ++ before
                ++ set_xlim (if 1.5 <? 2.5 then 1.5 else 2.5)
                     (if 3.5 <? 5.5 then 3.5 else 5.5) :: after)) /\
    Forall (fun call => forall a b, call <> set_xlim a b) (before ++ after).
Proof.
  split; [reflexivity|].
  split; [vm_compute; reflexivity|]. split; [vm_compute; reflexivity|].
  split; [vm_compute; reflexivity|]. split; [vm_compute; reflexivity|].
  split; [reflexivity|]. split; [reflexivity|].
  split; [reflexivity|]. split; [reflexivity|].
  apply (@plot_versus_x_limits [] hist_A hist_C
           [1.5; 2.5; 3.5] [2 / 6; 3 / 6; 1 / 6]
           [2.5; 3.5; 4.5; 5.5] [1 / 8; 4 / 8; 2 / 8; 1 / 8]
           1.5 3.5 2.5 5.5);
    first [reflexivity | vm_compute; reflexivity].
Defined.

Lemma column_data_gives_a_one_element_std_witness :
  let xs := [1.5; 2.5; 4] in
  let flat := per_video (Array1 xs) specs_1 "motion" "all" "all" [1; 2; 3; 4]
  in
  let column :=
    per_video (Array2 (map (fun x => [x]) xs)) specs_1 "motion" "all" "all"
      [1; 2; 3; 4] in
  length xs <> 1%nat /\ xs <> [] /\
  num_samples column = num_samples flat /\
  mean_per_video example_mean column = mean_per_video example_mean flat /\
  counts column = counts flat /\
  exists s,
    std_per_video example_mean flat = Ok (Scalar s) /\
    std_per_video example_mean column = Ok (Array [s]).
Proof.
  cbv zeta. split; [discriminate|]. split; [discriminate|].
  apply (@column_data_gives_a_one_element_std example_mean [1.5; 2.5; 4]
           specs_1 "motion" "all" "all" [1; 2; 3; 4]); discriminate.
Defined.

Lemma create_histogram_cases_witness :
  ndarray_size data_A <> 0%nat /\
  create_histogram example_max_bins (NdArray data_A) specs_1
    "motion" "all" "all" = Ok (Some hist_A) /\
  create_histogram example_max_bins (NdArray (Array1 [])) specs_1
    "motion" "all" "all" = Ok None.
Proof.
  assert (N : ndarray_size data_A <> 0%nat) by discriminate.
  split; [exact N|]. split.
  - apply (proj2 (create_histogram_cases example_max_bins specs_1
                    "motion" "all" "all") data_A N).
    vm_compute; reflexivity.
  - apply (proj1 (create_histogram_cases example_max_bins specs_1
                    "motion" "all" "all")).
    right. right. left. exists (Array1 []). split; reflexivity.
Defined.

Lemma merge_raises_when_it_places_a_histogram_witness :
  nth_error [hist_A; hist_C] 0 = Some hist_A /\
  mapM first_bin_midpoint [hist_A; hist_C] = Ok [1.5; 2.5] /\
  py_min [1.5; 2.5] = Ok 1.5 /\
  Exists (fun s => np_isnan s = false)
    (start_indices_of [1.5; 2.5] 1.5 (bin_width (specs hist_A))) /\
  exists e,
    merged_histogram_factory example_max_bins example_mean [hist_A; hist_C]
    = Raise e.
Proof.
  assert (Ef : mapM first_bin_midpoint [hist_A; hist_C] = Ok [1.5; 2.5])
    by (vm_compute; reflexivity).
  assert (Hex : Exists (fun s => np_isnan s = false)
                  (start_indices_of [1.5; 2.5] 1.5
                     (bin_width (specs hist_A)))).
  { apply Exists_cons_hd. vm_compute; reflexivity. }
  split; [reflexivity|]. split; [exact Ef|]. split; [reflexivity|].
  split; [exact Hex|].
  apply (@merge_raises_when_it_places_a_histogram example_max_bins
           example_mean [hist_A; hist_C] hist_A [1.5; 2.5] 1.5);
    [reflexivity | exact Ef | reflexivity | exact Hex].
Defined.

Lemma single_sample_std_is_zero_witness :
  let h := per_video (Array1 [5]) specs_1 "motion" "all" "all" [5; 6] in
  _std_per_video h = None /\ data h = Some (Array1 [5]) /\
  ndarray_len (Array1 [5]) = 1%Z /\
  std_per_video example_mean h = Ok (Scalar 0).
Proof.
  cbv zeta. split; [reflexivity|]. split; [reflexivity|].
  split; [reflexivity|].
  apply (@single_sample_std_is_zero example_mean
           (per_video (Array1 [5]) specs_1 "motion" "all" "all" [5; 6])
           (Array1 [5])); reflexivity.
Defined.

Lemma counts_total_witness :
  _counts hist_A = None /\ data hist_A = Some data_A /\
  bin_boundaries hist_A = Some [1; 2; 3; 4] /\
  decreases [1; 2; 3; 4] = false /\ (2 <= length [1; 2; 3; 4])%nat /\
  py_first [1; 2; 3; 4] = Ok 1 /\ py_last [1; 2; 3; 4] = Ok 4 /\
  exists c,
    counts hist_A = Ok (IntVec c) /\
    length [1; 2; 3; 4] = S (length c) /\
    Zsum c = (count_if (sorts_not_after 4) (np_ravel data_A)
              - count_if (sorts_before 1) (np_ravel data_A))%Z.
Proof.
  split; [reflexivity|]. split; [reflexivity|]. split; [reflexivity|].
  split; [vm_compute; reflexivity|]. split; [cbn; lia|].
  split; [reflexivity|]. split; [reflexivity|].
  apply (@counts_total hist_A data_A [1; 2; 3; 4] 1 4);
    first [reflexivity | vm_compute; reflexivity | cbn; lia].
Defined.

End Binary64Facts.
